(** * Healthcare facility actions (actions/actions.py)

    A shallow embedding of the custom actions of the medicare facility
    assistant and the properties of its facility-resolution core.

    Conventions of the model.
    - A Python [str] is a [string]; the model covers ASCII text.  The
      character tables behind [str.isdigit], [str.upper] and [str.title]
      are those of the code points 0..127 and say nothing of the others:
      a statement that rests on one of the three methods is made for
      ASCII texts only, under the hypothesis [ascii_text].
    - An exception is a value of [exn]; code that can raise returns a
      [result].
    - A JSON object of the upstream service is a finite map from field
      names to strings: every field the actions read is a JSON string in
      the three datasets.
    - [requests.get(path).json()] is a function from the request path to
      the decoded list or to the exception of the transport; the actions
      that fetch take it as their first argument. *)

From Stdlib Require Import Ascii Arith Lia DecimalString.
From stdpp Require Import base option list strings gmap.

(** ** Exceptions and results *)

Inductive exn : Type :=
  | KeyError (key : option string)   (* [None] is the key [None] *)
  | TypeError
  | ValueError
  | IndexError
  | AttributeError
  | TransportError
  | NotModelled.                     (* format field syntax outside the fragment *)

Inductive result (A : Type) : Type :=
  | Ok (a : A)
  | Raise (e : exn).
Arguments Ok {A} a.
Arguments Raise {A} e.

Definition bind {A B : Type} (r : result A) (k : A → result B) : result B :=
  match r with
  | Ok a => k a
  | Raise e => Raise e
  end.

Definition rmap {A B : Type} (f : A → B) (r : result A) : result B :=
  bind r (λ a, Ok (f a)).

Notation "'let*' x ':=' r 'in' k" := (bind r (λ x, k))
  (at level 10, x pattern, r at level 100, k at level 200, only parsing).

Definition raises {A : Type} (r : result A) : Prop := ∃ e, r = Raise e.

(** Monadic map over a list, left to right: the first exception wins. *)
Fixpoint mapM {A B : Type} (f : A → result B) (l : list A) : result (list B) :=
  match l with
  | [] => Ok []
  | a :: l' => let* b := f a in let* bs := mapM f l' in Ok (b :: bs)
  end.

(** ** Characters and the [str] methods the actions use *)

Definition code (c : ascii) : nat := nat_of_ascii c.

Definition is_digit (c : ascii) : bool := (48 <=? code c) && (code c <=? 57).
Definition is_lower (c : ascii) : bool := (97 <=? code c) && (code c <=? 122).
Definition is_upper (c : ascii) : bool := (65 <=? code c) && (code c <=? 90).
Definition is_cased (c : ascii) : bool := is_lower c || is_upper c.

Definition to_upper (c : ascii) : ascii :=
  if is_lower c then ascii_of_nat (code c - 32) else c.
Definition to_lower (c : ascii) : ascii :=
  if is_upper c then ascii_of_nat (code c + 32) else c.

Fixpoint all_chars (p : ascii → bool) (s : string) : bool :=
  match s with
  | EmptyString => true
  | String c s' => p c && all_chars p s'
  end.

Fixpoint map_chars (f : ascii → ascii) (s : string) : string :=
  match s with
  | EmptyString => EmptyString
  | String c s' => String (f c) (map_chars f s')
  end.

(** A text of the code points 0..127: the texts on which the three
    methods below are those of Python. *)
Definition ascii_text (s : string) : bool := all_chars (λ c, code c <? 128) s.

(** [str.isdigit] on an ASCII text: at least one character and all of
    them digits. *)
Definition str_isdigit (s : string) : bool :=
  match s with
  | EmptyString => false
  | String _ _ => all_chars is_digit s
  end.

(** [str.upper] on an ASCII text *)
Definition str_upper (s : string) : string := map_chars to_upper s.

(** [str.title] on an ASCII text: a character that follows a cased one is
    lower-cased, any other is upper-cased (title-cased). *)
Fixpoint title_from (previous_is_cased : bool) (s : string) : string :=
  match s with
  | EmptyString => EmptyString
  | String c s' =>
      String (if previous_is_cased then to_lower c else to_upper c)
             (title_from (is_cased c) s')
  end.

Definition str_title (s : string) : string := title_from false s.

(** The double quote character, as a string. *)
Definition dquote : string := String "034"%char EmptyString.

(** [sep.join(parts)] *)
Fixpoint str_join (sep : string) (parts : list string) : string :=
  match parts with
  | [] => EmptyString
  | [p] => p
  | p :: ps => p +:+ sep +:+ str_join sep ps
  end.

(** [str(n)] for a length. *)
Definition str_of_nat (n : nat) : string := NilZero.string_of_uint (Nat.to_uint n).

(** ** [str.format]

    The fragment used by the actions: literal text, the escapes [{{] and
    [}}], the automatically numbered field [{}] and the numbered field
    [{N}].  The arguments are given already rendered by [str].  A field
    with a name, an attribute, a conversion or a format specification is
    [NotModelled]. *)

Inductive numbering : Type :=
  | NumInit
  | NumAuto (next : nat)
  | NumManual.

Inductive fstate : Type :=
  | FText                       (* in literal text *)
  | FOpen                       (* just read a single left brace *)
  | FField (name : string)      (* inside a field, [name] read so far *)
  | FClose.                     (* just read a single right brace *)

Definition index_of_digits (s : string) : nat :=
  Nat.of_uint (default Decimal.Nil (NilZero.uint_of_string s)).

(** The argument a field names, and the numbering state after it. *)
Definition field_value (args : list string) (num : numbering) (name : string)
  : result (string * numbering) :=
  match name with
  | EmptyString =>
      match num with
      | NumManual => Raise ValueError
      | NumInit =>
          match args !! 0 with
          | Some a => Ok (a, NumAuto 1)
          | None => Raise IndexError
          end
      | NumAuto n =>
          match args !! n with
          | Some a => Ok (a, NumAuto (S n))
          | None => Raise IndexError
          end
      end
  | String _ _ =>
      if all_chars is_digit name then
        match num with
        | NumAuto _ => Raise ValueError
        | _ =>
            match args !! index_of_digits name with
            | Some a => Ok (a, NumManual)
            | None => Raise IndexError
            end
        end
      else Raise NotModelled
  end.

Fixpoint format_from (args : list string) (num : numbering) (st : fstate)
    (s : string) : result string :=
  match s with
  | EmptyString =>
      match st with
      | FText => Ok EmptyString
      | _ => Raise ValueError
      end
  | String c s' =>
      match st with
      | FText =>
          if Ascii.eqb c "{" then format_from args num FOpen s'
          else if Ascii.eqb c "}" then format_from args num FClose s'
          else rmap (String c) (format_from args num FText s')
      | FOpen =>
          if Ascii.eqb c "{" then rmap (String "{") (format_from args num FText s')
          else if Ascii.eqb c "}" then
            let* (a, num') := field_value args num EmptyString in
            rmap (String.app a) (format_from args num' FText s')
          else format_from args num (FField (String c EmptyString)) s'
      | FField name =>
          if Ascii.eqb c "}" then
            let* (a, num') := field_value args num name in
            rmap (String.app a) (format_from args num' FText s')
          else if Ascii.eqb c "{" then Raise NotModelled
          else format_from args num (FField (name +:+ String c EmptyString)) s'
      | FClose =>
          if Ascii.eqb c "}" then rmap (String "}") (format_from args num FText s')
          else Raise ValueError
      end
  end.

(** [template.format( *args )] *)
Definition str_format (template : string) (args : list string) : result string :=
  format_from args NumInit FText template.

(** ** Values of the dialogue host *)

(** A slot value of the tracker: [None], a text or a list of texts. *)
Inductive slot_value : Type :=
  | SNone
  | SText (s : string)
  | SList (l : list string).

#[global] Instance slot_value_eq_dec : EqDecision slot_value.
Proof. solve_decision. Defined.

(** A JSON object of the upstream service. *)
Abbreviation record := (gmap string string).

(** [d[k]] on a dict with text keys. *)
Definition getitem {V : Type} (d : gmap string V) (k : string) : result V :=
  match d !! k with
  | Some v => Ok v
  | None => Raise (KeyError (Some k))
  end.

(** [value == text] for a slot value. *)
Definition slot_is (value : slot_value) (text : string) : bool :=
  match value with
  | SText s => String.eqb s text
  | _ => false
  end.

(** [str(x)] of a value that is a text or [None]. *)
Definition str_of_option (o : option string) : string := default "None" o.

(** ** The tables *)

Inductive endpoint : Type :=
  | EndpointText (pattern : string)
  | EndpointQueries (queries : gmap string string).

Definition ENDPOINTS : gmap string endpoint :=
  list_to_map
    [ ("base", EndpointText "https://data.medicare.gov/resource/{}.json");
      ("xubh-q36u", EndpointQueries (list_to_map
         [ ("city_query", "?city={}");
           ("zip_code_query", "?zip_code={}");
           ("id_query", "?provider_id={}") ]));
      ("b27b-2uc7", EndpointQueries (list_to_map
         [ ("city_query", "?provider_city={}");
           ("zip_code_query", "?provider_zip_code={}");
           ("id_query", "?federal_provider_number={}") ]));
      ("9wzi-peqs", EndpointQueries (list_to_map
         [ ("city_query", "?city={}");
           ("zip_code_query", "?zip={}");
           ("id_query", "?provider_number={}") ])) ].

(** The dict keeps its insertion order, which [items()] and the loop over
    the keys follow. *)
Definition FACILITY_TYPES : list (string * gmap string string) :=
  [ ("hospital", list_to_map
       [ ("name", "hospital"); ("resource", "xubh-q36u") ]);
    ("nursing_home", list_to_map
       [ ("name", "nursing home"); ("resource", "b27b-2uc7") ]);
    ("home_health", list_to_map
       [ ("name", "home health agency"); ("resource", "9wzi-peqs") ]) ].

(** [ENDPOINTS['base']], used as a text. *)
Definition ENDPOINTS_base : result string :=
  let* e := getitem ENDPOINTS "base" in
  match e with
  | EndpointText pattern => Ok pattern
  | EndpointQueries _ => Raise TypeError
  end.

(** [ENDPOINTS[resource][query]]; the text key is returned with the template. *)
Definition ENDPOINTS_query (resource : slot_value) (query : string)
  : result (string * string) :=
  match resource with
  | SText key =>
      let* e := getitem ENDPOINTS key in
      match e with
      | EndpointQueries queries =>
          let* template := getitem queries query in Ok (key, template)
      | EndpointText _ => Raise TypeError    (* a text indexed by a text *)
      end
  | SNone => Raise (KeyError None)
  | SList _ => Raise TypeError               (* unhashable key *)
  end.

(** [d[k]] on a dict kept with its insertion order. *)
Fixpoint getitem_ordered {V : Type} (d : list (string * V)) (k : string)
  : result V :=
  match d with
  | [] => Raise (KeyError (Some k))
  | (key, value) :: rest =>
      if String.eqb key k then Ok value else getitem_ordered rest k
  end.

(** [FACILITY_TYPES[t][field]] *)
Definition FACILITY_TYPES_at (t field : string) : result string :=
  let* value := getitem_ordered FACILITY_TYPES t in
  getitem value field.

(** ** Helpers of the module *)

(** Creates a path to find provider using the endpoints. *)
Definition _create_path (base resource query : string) (values : slot_value)
  : result string :=
  match values with
  | SList ws =>
      let* quoted := mapM (λ w, str_format (dquote +:+ "{0}" +:+ dquote) [w]) ws in
      str_format (base +:+ query) [resource; str_join ", " quoted]
  | SText v => str_format (base +:+ query) [resource; v]
  | SNone => str_format (base +:+ query) [resource; str_of_option None]
  end.

(** The value of [full_path] in [_find_facilities]. *)
Definition _find_facilities_full_path (location resource : slot_value)
  : result string :=
  match location with
  | SText loc =>
      if str_isdigit loc then
        let* base := ENDPOINTS_base in
        let* (key, query) := ENDPOINTS_query resource "zip_code_query" in
        _create_path base key query (SText loc)
      else
        let* base := ENDPOINTS_base in
        let* (key, query) := ENDPOINTS_query resource "city_query" in
        _create_path base key query (SText (str_upper loc))
  | _ => Raise TypeError                     (* str.isdigit of a non-text *)
  end.

(** Returns json of facilities matching the search criteria. *)
Definition _find_facilities (requests_get_json : string → result (list record))
    (location resource : slot_value) : result (list record) :=
  let* full_path := _find_facilities_full_path location resource in
  requests_get_json full_path.

Fixpoint _resolve_name (facility_types : list (string * gmap string string))
    (resource : slot_value) : option string :=
  match facility_types with
  | [] => Some EmptyString
  | (key, value) :: rest =>
      if bool_decide (match value !! "resource" with
                      | Some v => SText v
                      | None => SNone
                      end = resource)
      then value !! "name"
      else _resolve_name rest resource
  end.

(** ** The dialogue host: tracker, events and collected output *)

Record Tracker : Type := { slots : gmap string slot_value }.

(** [tracker.get_slot(key)]: the value of the slot, [None] when there is
    no such slot. *)
Definition get_slot (tracker : Tracker) (key : string) : slot_value :=
  default SNone (slots tracker !! key).

Inductive EventType : Type :=
  | SlotSet (key : string) (value : slot_value).

Record button : Type := Button { title : string; payload : string }.

Record message : Type := Message { text : string; buttons : list button }.

(** What one run of an action leaves behind: the events it returns, the
    messages it hands to the dispatcher and the lines it prints. *)
Record outcome : Type :=
  Outcome { events : list EventType; uttered : list message; printed : list string }.

(** ** FindHealthCareAddress *)

Module FindHealthCareAddress.

Definition name : string := "find_healthcare_address".

Definition no_address_found : string :=
  "No address found. Most likely this action was executed "
  +:+ "before the user choose a healthcare facility from the "
  +:+ "provided list. "
  +:+ "If this is a common problem in your dialogue flow,"
  +:+ "using a form instead for this action might be appropriate.".

(** The value of [address] for the record [selected]: the three
    branches on [facility_type]. *)
Definition address (facility_type : slot_value) (selected : record)
  : result string :=
  let* hospital := FACILITY_TYPES_at "hospital" "resource" in
  if slot_is facility_type hospital then
    let* a := getitem selected "address" in
    let* c := getitem selected "city" in
    let* s := getitem selected "state" in
    let* z := getitem selected "zip_code" in
    str_format "{}, {}, {} {}" [str_title a; str_title c; str_upper s; str_title z]
  else
    let* nursing_home := FACILITY_TYPES_at "nursing_home" "resource" in
    if slot_is facility_type nursing_home then
      let* a := getitem selected "provider_address" in
      let* c := getitem selected "provider_city" in
      let* s := getitem selected "provider_state" in
      let* z := getitem selected "provider_zip_code" in
      str_format "{}, {}, {} {}" [str_title a; str_title c; str_upper s; str_title z]
    else
      let* a := getitem selected "address" in
      let* c := getitem selected "city" in
      let* s := getitem selected "state" in
      let* z := getitem selected "zip" in
      str_format "{}, {}, {} {}" [str_title a; str_title c; str_upper s; str_title z].

(** The value of [full_path] in [run]. *)
Definition full_path (facility_type healthcare_id : slot_value)
  : result string :=
  let* base := ENDPOINTS_base in
  let* (key, query) := ENDPOINTS_query facility_type "id_query" in
  _create_path base key query healthcare_id.

Definition run (requests_get_json : string → result (list record))
    (tracker : Tracker) : result outcome :=
  let facility_type := get_slot tracker "facility_type" in
  let healthcare_id := get_slot tracker "facility_id" in
  let* full_path := full_path facility_type healthcare_id in
  let* results := requests_get_json full_path in
  match results with
  | selected :: _ =>
      let* address := address facility_type selected in
      Ok (Outcome [SlotSet "facility_address" (SText address)] [] [])
  | [] =>
      Ok (Outcome [SlotSet "facility_address" (SText "not found")] []
                  [no_address_found])
  end.

End FindHealthCareAddress.

(** ** ValidateFacilityForm *)

Module ValidateFacilityForm.

Definition name : string := "validate_facility_form".

Definition required_slots : list string := ["facility_type"; "location"].

(** The loop over the required slots: the first one not filled is
    requested. *)
Fixpoint first_unfilled (tracker : Tracker) (names : list string)
  : option string :=
  match names with
  | [] => None
  | slot_name :: rest =>
      match slots tracker !! slot_name with
      | None | Some SNone => Some slot_name
      | Some _ => first_unfilled tracker rest
      end
  end.

Definition run (tracker : Tracker) : result outcome :=
  match first_unfilled tracker required_slots with
  | Some slot_name =>
      Ok (Outcome [SlotSet "requested_slot" (SText slot_name)] [] [])
  | None => Ok (Outcome [SlotSet "requested_slot" SNone] [] [])
  end.

End ValidateFacilityForm.

(** ** SubmitFacilityForm *)

Module SubmitFacilityForm.

Definition name : string := "submit_facility_form".

(** The body of the loop over the results: the button of the record [r]. *)
Definition facility_button (facility_type : slot_value) (r : record)
  : result button :=
  let* hospital := FACILITY_TYPES_at "hospital" "resource" in
  let* (facility_id, name) :=
    if slot_is facility_type hospital then
      let facility_id := r !! "provider_id" in        (* r.get *)
      let* name := getitem r "hospital_name" in
      Ok (facility_id, name)
    else
      let* nursing_home := FACILITY_TYPES_at "nursing_home" "resource" in
      if slot_is facility_type nursing_home then
        let* facility_id := getitem r "federal_provider_number" in
        let* name := getitem r "provider_name" in
        Ok (Some facility_id, name)
      else
        let* facility_id := getitem r "provider_number" in
        let* name := getitem r "provider_name" in
        Ok (Some facility_id, name)
  in
  let* payload :=
    match facility_id with
    | Some id =>
        Ok ("/inform{" +:+ dquote +:+ "facility_id" +:+ dquote +:+ ":"
            +:+ dquote +:+ id +:+ dquote +:+ "}")
    | None => Raise TypeError              (* a text plus [None] *)
    end in
  let* title := str_format "{}" [str_title name] in
  Ok (Button title payload).

(** The value of [message] once the buttons are built. *)
Definition summary (count : nat) (button_name : option string)
  : result string :=
  if Nat.eqb count 1 then
    str_format "Here is a {} near you:" [str_of_option button_name]
  else
    let button_name :=
      if bool_decide (button_name = Some "home health agency")
      then Some "home health agencie" else button_name in
    str_format "Here are {} {}s near you:"
      [str_of_nat count; str_of_option button_name].

Definition run (requests_get_json : string → result (list record))
    (tracker : Tracker) : result outcome :=
  let location := get_slot tracker "location" in
  let facility_type := get_slot tracker "facility_type" in
  let* results := _find_facilities requests_get_json location facility_type in
  let button_name := _resolve_name FACILITY_TYPES facility_type in
  if Nat.eqb (length results) 0 then
    let* place :=
      match location with
      | SText loc => Ok (str_title loc)
      | _ => Raise AttributeError
      end in
    let* sorry :=
      str_format "Sorry, we could not find a {} in {}."
        [str_of_option button_name; place] in
    Ok (Outcome [] [Message sorry []] [])
  else
    (* limit number of results to 3 for clear presentation purposes *)
    let* buttons := mapM (facility_button facility_type) (take 3 results) in
    let* message := summary (length buttons) button_name in
    Ok (Outcome [] [Message message buttons] []).

End SubmitFacilityForm.

(** ** FindFacilityTypes *)

Module FindFacilityTypes.

Definition name : string := "find_facility_types".

(** The body of the loop over [FACILITY_TYPES]. *)
Definition type_button (facility_type : gmap string string) : result button :=
  let* payload :=
    match facility_type !! "resource" with
    | Some resource =>
        Ok ("/inform{" +:+ dquote +:+ "facility_type" +:+ dquote +:+ ": "
            +:+ dquote +:+ resource +:+ dquote +:+ "}")
    | None => Raise TypeError
    end in
  let* name :=
    match facility_type !! "name" with
    | Some name => Ok name
    | None => Raise AttributeError
    end in
  let* title := str_format "{}" [str_title name] in
  Ok (Button title payload).

Definition run (tracker : Tracker) : result outcome :=
  let* buttons :=
    mapM (λ t, let* facility_type := getitem_ordered FACILITY_TYPES t in
               type_button facility_type)
         (map fst FACILITY_TYPES) in
  Ok (Outcome [] [Message "utter_greet" buttons] []).

End FindFacilityTypes.

(** ** Notions of the specification *)

(** A text without braces: literal text of a template. *)
Definition no_brace (s : string) : bool :=
  all_chars (λ c, negb (Ascii.eqb c "{") && negb (Ascii.eqb c "}")) s.

(** A template with exactly one substitution slot. *)
Definition one_slot (before after : string) : string := before +:+ "{}" +:+ after.

(** An element of a sequence value, wrapped in double quotes. *)
Definition quoted (w : string) : string := dquote +:+ w +:+ dquote.

(** The elements joined with a comma and a space, in the words of the
    specification: the first element, then every further element after
    a comma and a space. *)
Definition comma_joined (parts : list string) : string :=
  match parts with
  | [] => EmptyString
  | first :: others => foldl (λ joined part, joined +:+ ", " +:+ part) first others
  end.

(** The pluralization rule in the words of the specification: the label
    of the home health agencies is irregular, any other label takes an s. *)
Definition pluralize (label : string) : string :=
  if String.eqb label "home health agency" then "home health agencies"
  else label +:+ "s".

(** The address fields of the records of each data source, in the order
    street, city, state, postal code. *)
Definition address_fields (resource : string)
  : option (string * string * string * string) :=
  if String.eqb resource "xubh-q36u" then
    Some ("address", "city", "state", "zip_code")
  else if String.eqb resource "b27b-2uc7" then
    Some ("provider_address", "provider_city", "provider_state",
          "provider_zip_code")
  else if String.eqb resource "9wzi-peqs" then
    Some ("address", "city", "state", "zip")
  else None.

(** The identifier and name fields of the records of each data source. *)
Definition search_fields (resource : string) : option (string * string) :=
  if String.eqb resource "xubh-q36u" then Some ("provider_id", "hospital_name")
  else if String.eqb resource "b27b-2uc7" then
    Some ("federal_provider_number", "provider_name")
  else if String.eqb resource "9wzi-peqs" then
    Some ("provider_number", "provider_name")
  else None.

(** The payload of the button that selects the facility [id]. *)
Definition select_payload (id : string) : string :=
  "/inform{" +:+ dquote +:+ "facility_id" +:+ dquote +:+ ":"
  +:+ dquote +:+ id +:+ dquote +:+ "}".

(** The nursing-home record of scenario D. *)
Definition acme_home : record :=
  list_to_map
    [ ("provider_name", "acme home");
      ("federal_provider_number", "123");
      ("provider_address", "1 main st");
      ("provider_city", "boston");
      ("provider_state", "ma");
      ("provider_zip_code", "02108") ].

(** A record of the home health agencies. *)
Definition salem_agency : record :=
  list_to_map
    [ ("provider_name", "salem home care");
      ("provider_number", "387001");
      ("address", "1 elm st");
      ("city", "salem");
      ("state", "or");
      ("zip", "97301") ].

(** A hospital record without its identifier. *)
Definition general_hospital : record :=
  list_to_map [ ("hospital_name", "general hospital"); ("city", "boston") ].

(** A tracker with the slots of a search and of a lookup filled. *)
Definition boston_tracker (facility_type : string) : Tracker :=
  {| slots := list_to_map [ ("facility_type", SText facility_type);
                            ("location", SText "boston");
                            ("facility_id", SText "123") ] |}.

(** A hospital record that has its identifier and its name. *)
Definition hospital_record (id name : string) : record :=
  list_to_map [ ("provider_id", id); ("hospital_name", name) ].

(** ** The branches of the two dispatches, one definition each *)

(** One branch of the address dispatch, for given field names. *)
Definition address_with (street city state postal : string) (selected : record)
  : result string :=
  let* a := getitem selected street in
  let* c := getitem selected city in
  let* s := getitem selected state in
  let* z := getitem selected postal in
  str_format "{}, {}, {} {}" [str_title a; str_title c; str_upper s; str_title z].

(** A branch of the button dispatch that reads both fields by subscript. *)
Definition button_with (id_field name_field : string) (r : record) : result button :=
  let* id := getitem r id_field in
  let* name := getitem r name_field in
  Ok (Button (str_title name) (select_payload id)).

(** The hospital branch: the identifier is read with [get]. *)
Definition button_with_get (id_field name_field : string) (r : record)
  : result button :=
  let* name := getitem r name_field in
  match r !! id_field with
  | Some id => Ok (Button (str_title name) (select_payload id))
  | None => Raise TypeError
  end.

(** ** Notions of the further properties *)

(** The keys of the three data sources. *)
Definition registered_keys : list string := ["xubh-q36u"; "b27b-2uc7"; "9wzi-peqs"].

(** An ASCII text without letters: digits, spaces, hyphens and the like. *)
Definition no_letter (s : string) : bool :=
  ascii_text s && all_chars (λ c, negb (is_cased c)) s.

(** A text that holds a comma. *)
Definition has_comma (s : string) : bool :=
  negb (all_chars (λ c, negb (Ascii.eqb c ",")) s).

(** [value.get('resource')], as the value that is compared. *)
Definition resource_value (value : gmap string string) : slot_value :=
  match value !! "resource" with
  | Some v => SText v
  | None => SNone
  end.

(** The payload of the button that selects the facility type [resource]. *)
Definition type_payload (resource : string) : string :=
  "/inform{" +:+ dquote +:+ "facility_type" +:+ dquote +:+ ": "
  +:+ dquote +:+ resource +:+ dquote +:+ "}".

(** The button presented for a record that has the two fields. *)
Definition presented (id_field name_field : string) (r : record) : button :=
  Button (str_title (default EmptyString (r !! name_field)))
         (select_payload (default EmptyString (r !! id_field))).

(** The slot that the form asks for, read through [get_slot]. *)
Definition next_slot (tracker : Tracker) : slot_value :=
  if decide (get_slot tracker "facility_type" = SNone) then SText "facility_type"
  else if decide (get_slot tracker "location" = SNone) then SText "location"
  else SNone.

(** * Properties *)

(** ** The model on the scenarios of the specification *)

Example format_two : str_format "a{}b{}c" ["x"; "y"] = Ok "axbyc".
Proof. reflexivity. Qed.
Example format_quoted :
  str_format (dquote +:+ "{0}" +:+ dquote) ["w"] = Ok (dquote +:+ "w" +:+ dquote).
Proof. reflexivity. Qed.
Example format_escape : str_format "{{}}{}" ["w"] = Ok "{}w".
Proof. reflexivity. Qed.
Example format_missing : str_format "{}{}" ["w"] = Raise IndexError.
Proof. reflexivity. Qed.
Example format_single : str_format "a}b" ["w"] = Raise ValueError.
Proof. reflexivity. Qed.
Example title_words : str_title "1 main st" = "1 Main St".
Proof. reflexivity. Qed.
Example str_of_nat_3 : str_of_nat 3 = "3".
Proof. reflexivity. Qed.
Example ENDPOINTS_base_value :
  ENDPOINTS_base = Ok "https://data.medicare.gov/resource/{}.json".
Proof. reflexivity. Qed.
Example FACILITY_TYPES_hospital :
  FACILITY_TYPES_at "hospital" "resource" = Ok "xubh-q36u".
Proof. reflexivity. Qed.
Example scenario_A :
  _find_facilities_full_path (SText "12345") (SText "xubh-q36u")
  = Ok "https://data.medicare.gov/resource/xubh-q36u.json?zip_code=12345".
Proof. reflexivity. Qed.
Example scenario_B :
  _find_facilities_full_path (SText "boston") (SText "xubh-q36u")
  = Ok "https://data.medicare.gov/resource/xubh-q36u.json?city=BOSTON".
Proof. reflexivity. Qed.
Example resolve_name_nursing_home : _resolve_name FACILITY_TYPES (SText "b27b-2uc7") = Some "nursing home".
Proof. reflexivity. Qed.
Example facility_types_buttons :
  FindFacilityTypes.run (boston_tracker "xubh-q36u")
  = Ok (Outcome []
          [Message "utter_greet"
             [ Button "Hospital"
                 ("/inform{" +:+ dquote +:+ "facility_type" +:+ dquote +:+ ": "
                  +:+ dquote +:+ "xubh-q36u" +:+ dquote +:+ "}");
               Button "Nursing Home"
                 ("/inform{" +:+ dquote +:+ "facility_type" +:+ dquote +:+ ": "
                  +:+ dquote +:+ "b27b-2uc7" +:+ dquote +:+ "}");
               Button "Home Health Agency"
                 ("/inform{" +:+ dquote +:+ "facility_type" +:+ dquote +:+ ": "
                  +:+ dquote +:+ "9wzi-peqs" +:+ dquote +:+ "}") ]]
          []).
Proof. reflexivity. Qed.
Example validate_requests_type :
  ValidateFacilityForm.run {| slots := list_to_map [ ("location", SText "boston") ] |}
  = Ok (Outcome [SlotSet "requested_slot" (SText "facility_type")] [] []).
Proof. reflexivity. Qed.
Example validate_all_filled :
  ValidateFacilityForm.run (boston_tracker "xubh-q36u")
  = Ok (Outcome [SlotSet "requested_slot" SNone] [] []).
Proof. reflexivity. Qed.
Example submit_no_result :
  SubmitFacilityForm.run (λ _, Ok []) (boston_tracker "9wzi-peqs")
  = Ok (Outcome []
          [Message "Sorry, we could not find a home health agency in Boston." []] []).
Proof. reflexivity. Qed.
Example submit_unregistered :
  SubmitFacilityForm.run (λ _, Ok [salem_agency]) (boston_tracker "no-such-key")
  = Raise (KeyError (Some "no-such-key")).
Proof. reflexivity. Qed.

(** ** Texts *)

Lemma app_nil_r_string (s : string) : s +:+ EmptyString = s.
Proof. induction s as [|c s IH]; [done|]. cbv [String.app]. fold String.app. by rewrite IH. Qed.

Lemma app_assoc_string (s t u : string) : (s +:+ t) +:+ u = s +:+ t +:+ u.
Proof.
  induction s as [|c s IH]; [done|].
  change (String c ((s +:+ t) +:+ u) = String c (s +:+ t +:+ u)).
  by rewrite IH.
Qed.

Lemma app_cons_string (c : ascii) (s t : string) :
  String c s +:+ t = String c (s +:+ t).
Proof. reflexivity. Qed.

(** ** Results *)

Lemma mapM_length {A B : Type} (f : A → result B) (l : list A) (bs : list B) :
  mapM f l = Ok bs → length bs = length l.
Proof.
  revert bs. induction l as [|a l IH]; intros bs H; simpl in H.
  - by inversion H.
  - destruct (f a) as [b|e]; simpl in H; [|done].
    destruct (mapM f l) as [bs'|e]; simpl in H; [|done].
    inversion H; subst. simpl. f_equal. by apply IH.
Qed.

Lemma mapM_raises {A B : Type} (f : A → result B) (l : list A) (a : A) :
  a ∈ l → raises (f a) → raises (mapM f l).
Proof.
  intros Hin [e He]. induction l as [|x l IH]; [by apply elem_of_nil in Hin|].
  simpl. destruct (f x) as [b|e'] eqn:Hx; [|by eexists].
  apply elem_of_cons in Hin as [->|Hin]; [congruence|].
  destruct (IH Hin) as [e' ->]. by eexists.
Qed.

Lemma mapM_Ok {A B : Type} (f : A → result B) (g : A → B) (l : list A) :
  Forall (λ a, f a = Ok (g a)) l → mapM f l = Ok (map g l).
Proof.
  induction 1 as [|a l Ha _ IH]; [done|]. simpl. by rewrite Ha, IH.
Qed.

(** ** Templates *)

Lemma format_from_text args num (p s : string) :
  no_brace p = true →
  format_from args num FText (p +:+ s)
  = rmap (String.app p) (format_from args num FText s).
Proof.
  induction p as [|c p IH]; intros Hp.
  - change (EmptyString +:+ s) with s. by destruct (format_from _ _ _ s).
  - unfold no_brace in Hp. simpl in Hp.
    apply andb_prop in Hp as [Hc Hp]. apply andb_prop in Hc as [Hc1 Hc2].
    apply negb_true_iff in Hc1, Hc2.
    rewrite app_cons_string. simpl. rewrite Hc1, Hc2, IH by exact Hp.
    by destruct (format_from _ _ _ s).
Qed.

Lemma format_from_slot args num (s : string) :
  format_from args num FText ("{}" +:+ s)
  = let* (a, num') := field_value args num EmptyString in
    rmap (String.app a) (format_from args num' FText s).
Proof. reflexivity. Qed.

Lemma format_from_end args num (p : string) :
  no_brace p = true → format_from args num FText p = Ok p.
Proof.
  intros Hp. rewrite <- (app_nil_r_string p) at 1.
  rewrite format_from_text by exact Hp. simpl. by rewrite app_nil_r_string.
Qed.

(** A template of two slots and its two arguments. *)
Lemma str_format_two_slots (p1 p2 p3 a1 a2 : string) :
  no_brace p1 = true → no_brace p2 = true → no_brace p3 = true →
  str_format (p1 +:+ "{}" +:+ p2 +:+ "{}" +:+ p3) [a1; a2]
  = Ok (p1 +:+ a1 +:+ p2 +:+ a2 +:+ p3).
Proof.
  intros H1 H2 H3. unfold str_format.
  rewrite format_from_text, format_from_slot by done. simpl.
  rewrite format_from_text, format_from_slot by done. simpl.
  by rewrite format_from_end.
Qed.

Lemma str_format_quoted (w : string) :
  str_format (dquote +:+ "{0}" +:+ dquote) [w] = Ok (quoted w).
Proof. reflexivity. Qed.

(** ** The path builder *)

Lemma one_slot_pair (b1 b2 q1 q2 : string) :
  one_slot b1 b2 +:+ one_slot q1 q2 = b1 +:+ "{}" +:+ (b2 +:+ q1) +:+ "{}" +:+ q2.
Proof. unfold one_slot. by rewrite !app_assoc_string. Qed.

Lemma no_brace_app (s t : string) :
  no_brace s = true → no_brace t = true → no_brace (s +:+ t) = true.
Proof.
  intros Hs Ht. induction s as [|c s IH]; [done|].
  unfold no_brace in *. rewrite app_cons_string. simpl in *.
  apply andb_prop in Hs as [-> Hs]. simpl. by apply IH.
Qed.

Lemma mapM_quoted (ws : list string) :
  mapM (λ w, str_format (dquote +:+ "{0}" +:+ dquote) [w]) ws = Ok (map quoted ws).
Proof. apply mapM_Ok, Forall_forall. intros w _. apply str_format_quoted. Qed.

Lemma create_path_text (b1 b2 q1 q2 resource v : string) :
  no_brace b1 = true → no_brace b2 = true →
  no_brace q1 = true → no_brace q2 = true →
  _create_path (one_slot b1 b2) resource (one_slot q1 q2) (SText v)
  = Ok (b1 +:+ resource +:+ b2 +:+ q1 +:+ v +:+ q2).
Proof.
  intros Hb1 Hb2 Hq1 Hq2. unfold _create_path.
  rewrite one_slot_pair, str_format_two_slots by auto using no_brace_app.
  by rewrite !app_assoc_string.
Qed.

Lemma create_path_list (b1 b2 q1 q2 resource : string) (ws : list string) :
  no_brace b1 = true → no_brace b2 = true →
  no_brace q1 = true → no_brace q2 = true →
  _create_path (one_slot b1 b2) resource (one_slot q1 q2) (SList ws)
  = Ok (b1 +:+ resource +:+ b2 +:+ q1 +:+ str_join ", " (map quoted ws) +:+ q2).
Proof.
  intros Hb1 Hb2 Hq1 Hq2. unfold _create_path.
  rewrite mapM_quoted. simpl.
  rewrite one_slot_pair, str_format_two_slots by auto using no_brace_app.
  by rewrite !app_assoc_string.
Qed.

(** ** The registry *)

Lemma ENDPOINTS_nodup :
  NoDup (["base"; "xubh-q36u"; "b27b-2uc7"; "9wzi-peqs"] : list string).
Proof. by apply (bool_decide_unpack _). Qed.

(** Every registered data source has its three templates, each a literal
    prefix followed by the slot. *)
Lemma ENDPOINTS_registered (key : string) (queries : gmap string string) :
  ENDPOINTS !! key = Some (EndpointQueries queries) →
  ∃ zip_prefix city_prefix id_prefix,
    queries !! "zip_code_query" = Some (one_slot zip_prefix EmptyString)
    ∧ queries !! "city_query" = Some (one_slot city_prefix EmptyString)
    ∧ queries !! "id_query" = Some (one_slot id_prefix EmptyString)
    ∧ no_brace zip_prefix = true ∧ no_brace city_prefix = true
    ∧ no_brace id_prefix = true.
Proof.
  intros H. unfold ENDPOINTS in H.
  apply elem_of_list_to_map in H; [|exact ENDPOINTS_nodup].
  repeat (apply elem_of_cons in H as [H|H]); [| | | |by apply elem_of_nil in H];
    inversion H; subst; clear H.
  - by exists "?zip_code=", "?city=", "?provider_id=".
  - by exists "?provider_zip_code=", "?provider_city=", "?federal_provider_number=".
  - by exists "?zip=", "?city=", "?provider_number=".
Qed.

Lemma ENDPOINTS_query_registered (key query template : string)
    (queries : gmap string string) :
  ENDPOINTS !! key = Some (EndpointQueries queries) →
  queries !! query = Some template →
  ENDPOINTS_query (SText key) query = Ok (key, template).
Proof.
  intros Hk Hq. unfold ENDPOINTS_query, getitem. by rewrite Hk; simpl; rewrite Hq.
Qed.

Lemma ENDPOINTS_base_pattern :
  ENDPOINTS_base = Ok (one_slot "https://data.medicare.gov/resource/" ".json").
Proof. reflexivity. Qed.

(** The path of a registered data source for a text value. *)
Lemma registered_path (key query prefix v : string) (queries : gmap string string) :
  ENDPOINTS !! key = Some (EndpointQueries queries) →
  queries !! query = Some (one_slot prefix EmptyString) →
  no_brace prefix = true →
  (let* base := ENDPOINTS_base in
   let* (key, query) := ENDPOINTS_query (SText key) query in
   _create_path base key query (SText v))
  = Ok ("https://data.medicare.gov/resource/" +:+ key +:+ ".json" +:+ prefix +:+ v).
Proof.
  intros Hk Hq Hp.
  rewrite ENDPOINTS_base_pattern, (ENDPOINTS_query_registered _ _ _ _ Hk Hq).
  cbn [bind]. rewrite create_path_text by done. by rewrite app_nil_r_string.
Qed.

Lemma str_isdigit_spec (s : string) :
  str_isdigit s = true ↔ s ≠ EmptyString ∧ all_chars is_digit s = true.
Proof. destruct s; simpl; [split; [done|by intros [? _]]|split; [done|by intros [_ ?]]]. Qed.

(** ** Facility search: the request path *)

(** C1, as stated, fails: every character of the empty location is a
    digit, yet the search does not use the by-postal-code template for it. *)
Lemma find_facilities_empty_not_postal :
  ¬ (∀ (loc key template : string) (queries : gmap string string),
       ENDPOINTS !! key = Some (EndpointQueries queries) →
       queries !! "zip_code_query" = Some template →
       all_chars is_digit loc = true →
       _find_facilities_full_path (SText loc) (SText key)
       = _create_path "https://data.medicare.gov/resource/{}.json" key template
           (SText loc)).
Proof.
  intros H.
  specialize (H EmptyString "xubh-q36u" "?zip_code={}"
                (list_to_map [ ("city_query", "?city={}");
                               ("zip_code_query", "?zip_code={}");
                               ("id_query", "?provider_id={}") ])).
  specialize (H eq_refl eq_refl eq_refl). vm_compute in H. discriminate H.
Qed.

(** C1 (amended): for every ASCII location text and every registered
    data source, a location that is not empty and holds only decimal
    digits gives the path of the by-postal-code template with the
    location as it is; any other location, the empty one included, gives
    the path of the by-city template with the location in upper case.
    Scenario A and scenario B of the specification are two instances. *)
Theorem find_facilities_classifies :
  (∀ (loc key : string) (queries : gmap string string),
     ascii_text loc = true →
     ENDPOINTS !! key = Some (EndpointQueries queries) →
     ∃ zip_prefix city_prefix,
       queries !! "zip_code_query" = Some (zip_prefix +:+ "{}")
       ∧ queries !! "city_query" = Some (city_prefix +:+ "{}")
       ∧ (loc ≠ EmptyString → all_chars is_digit loc = true →
          _find_facilities_full_path (SText loc) (SText key)
          = Ok ("https://data.medicare.gov/resource/" +:+ key +:+ ".json"
                +:+ zip_prefix +:+ loc))
       ∧ (loc = EmptyString ∨ all_chars is_digit loc = false →
          _find_facilities_full_path (SText loc) (SText key)
          = Ok ("https://data.medicare.gov/resource/" +:+ key +:+ ".json"
                +:+ city_prefix +:+ str_upper loc)))
  ∧ _find_facilities_full_path (SText "12345") (SText "xubh-q36u")
    = Ok "https://data.medicare.gov/resource/xubh-q36u.json?zip_code=12345"
  ∧ _find_facilities_full_path (SText "boston") (SText "xubh-q36u")
    = Ok "https://data.medicare.gov/resource/xubh-q36u.json?city=BOSTON"
  ∧ _find_facilities_full_path (SText "St. Paul 2") (SText "b27b-2uc7")
    = Ok "https://data.medicare.gov/resource/b27b-2uc7.json?provider_city=ST. PAUL 2"
  ∧ _find_facilities_full_path (SText "0123456789") (SText "9wzi-peqs")
    = Ok "https://data.medicare.gov/resource/9wzi-peqs.json?zip=0123456789"
  ∧ _find_facilities_full_path (SText "02108/:a") (SText "9wzi-peqs")
    = Ok "https://data.medicare.gov/resource/9wzi-peqs.json?city=02108/:A".
Proof.
  split; [|by repeat split].
  intros loc key queries _ Hk.
  destruct (ENDPOINTS_registered _ _ Hk)
    as (zp & cp & ip & Hz & Hc & _ & Hzp & Hcp & _).
  exists zp, cp. repeat split.
  - exact Hz.
  - exact Hc.
  - intros Hne Hd. unfold _find_facilities_full_path.
    rewrite (proj2 (str_isdigit_spec loc)) by done.
    by apply (registered_path _ _ _ _ _ Hk Hz).
  - intros Hcity. unfold _find_facilities_full_path.
    destruct (str_isdigit loc) eqn:Hd.
    + apply str_isdigit_spec in Hd as [Hne Hall]. destruct Hcity; congruence.
    + by apply (registered_path _ _ _ _ _ Hk Hc).
Qed.

Lemma find_facilities_classifies_witness :
  ∃ zip_prefix city_prefix : string,
    (list_to_map [ ("city_query", "?city={}"); ("zip_code_query", "?zip={}");
                   ("id_query", "?provider_number={}") ] : gmap string string)
      !! "zip_code_query" = Some (zip_prefix +:+ "{}")
    ∧ (list_to_map [ ("city_query", "?city={}"); ("zip_code_query", "?zip={}");
                     ("id_query", "?provider_number={}") ] : gmap string string)
        !! "city_query" = Some (city_prefix +:+ "{}")
    ∧ ("97301" ≠ EmptyString → all_chars is_digit "97301" = true →
       _find_facilities_full_path (SText "97301") (SText "9wzi-peqs")
       = Ok ("https://data.medicare.gov/resource/" +:+ "9wzi-peqs" +:+ ".json"
             +:+ zip_prefix +:+ "97301"))
    ∧ ("97301" = EmptyString ∨ all_chars is_digit "97301" = false →
       _find_facilities_full_path (SText "97301") (SText "9wzi-peqs")
       = Ok ("https://data.medicare.gov/resource/" +:+ "9wzi-peqs" +:+ ".json"
             +:+ city_prefix +:+ str_upper "97301")).
Proof.
  apply (proj1 find_facilities_classifies "97301" "9wzi-peqs");
    reflexivity.
Defined.

(** C10: the empty location is not a postal code ([str.isdigit] is false
    for it), so for every registered data source the search with an empty
    location uses the by-city template, with nothing substituted for the
    value. *)
Theorem find_facilities_empty_location (key : string) (queries : gmap string string) :
  ENDPOINTS !! key = Some (EndpointQueries queries) →
  str_isdigit EmptyString = false
  ∧ ∃ city_prefix,
      queries !! "city_query" = Some (city_prefix +:+ "{}")
      ∧ _find_facilities_full_path (SText EmptyString) (SText key)
        = _create_path "https://data.medicare.gov/resource/{}.json" key
            (city_prefix +:+ "{}") (SText EmptyString)
      ∧ _find_facilities_full_path (SText EmptyString) (SText key)
        = Ok ("https://data.medicare.gov/resource/" +:+ key +:+ ".json"
              +:+ city_prefix).
Proof.
  intros Hk. split; [reflexivity|].
  destruct (ENDPOINTS_registered _ _ Hk) as (zp & cp & ip & _ & Hc & _ & _ & Hcp & _).
  exists cp. split; [exact Hc|].
  assert (_find_facilities_full_path (SText EmptyString) (SText key)
          = Ok ("https://data.medicare.gov/resource/" +:+ key +:+ ".json" +:+ cp))
    as Hpath.
  { unfold _find_facilities_full_path. cbn [str_isdigit str_upper map_chars].
    rewrite (registered_path _ _ _ EmptyString _ Hk Hc Hcp).
    by rewrite app_nil_r_string. }
  split; [|exact Hpath].
  rewrite Hpath. symmetry.
  change "https://data.medicare.gov/resource/{}.json"
    with (one_slot "https://data.medicare.gov/resource/" ".json").
  change (cp +:+ "{}") with (one_slot cp EmptyString).
  rewrite create_path_text by done. by rewrite !app_nil_r_string.
Qed.

Lemma find_facilities_empty_location_witness :
  str_isdigit EmptyString = false
  ∧ ∃ city_prefix,
      (list_to_map [ ("city_query", "?city={}"); ("zip_code_query", "?zip={}");
                     ("id_query", "?provider_number={}") ] : gmap string string)
        !! "city_query" = Some (city_prefix +:+ "{}")
      ∧ _find_facilities_full_path (SText EmptyString) (SText "9wzi-peqs")
        = _create_path "https://data.medicare.gov/resource/{}.json" "9wzi-peqs"
            (city_prefix +:+ "{}") (SText EmptyString)
      ∧ _find_facilities_full_path (SText EmptyString) (SText "9wzi-peqs")
        = Ok ("https://data.medicare.gov/resource/" +:+ "9wzi-peqs" +:+ ".json"
              +:+ city_prefix).
Proof.
  apply (find_facilities_empty_location "9wzi-peqs"). reflexivity.
Defined.

(** ** The path builder, as specified *)

Lemma comma_fold_app (others : list string) (s t : string) :
  foldl (λ joined part, joined +:+ ", " +:+ part) (s +:+ t) others
  = s +:+ foldl (λ joined part, joined +:+ ", " +:+ part) t others.
Proof.
  revert t. induction others as [|part others IH]; intros t; [done|].
  cbn [foldl]. by rewrite app_assoc_string, IH.
Qed.

Lemma str_join_comma_joined (parts : list string) :
  str_join ", " parts = comma_joined parts.
Proof.
  destruct parts as [|first others]; [done|]. unfold comma_joined.
  revert first. induction others as [|second others IH]; intros first; [done|].
  cbn [foldl]. rewrite !comma_fold_app, <- (IH second). reflexivity.
Qed.

(** C8, as stated, fails: the builder has an error condition, a template
    with one slot and a stray closing brace makes [str.format] raise
    [ValueError]. *)
Lemma create_path_can_fail :
  ¬ (∀ (base resource query value : string),
       ∃ path, _create_path base resource query (SText value) = Ok path).
Proof.
  intros H.
  destruct (H "https://data.medicare.gov/resource/{}.json" "xubh-q36u"
              "?city={}}" "BOSTON") as [path Hpath].
  discriminate Hpath.
Qed.

(** C8 (amended): with a base pattern and a query template that are each
    literal text without braces around one slot, building a path is
    string composition and does not fail: a text value gives the base
    and the template with the data-source key and the value in their
    slots; a sequence value has each element wrapped in double quotes and
    the elements joined with a comma and a space, and the joined text
    goes into the one slot of the template. *)
Theorem create_path_composes :
  (∀ b1 b2 q1 q2 resource : string,
     no_brace b1 = true → no_brace b2 = true →
     no_brace q1 = true → no_brace q2 = true →
     (∀ v : string,
        _create_path (one_slot b1 b2) resource (one_slot q1 q2) (SText v)
        = Ok ((b1 +:+ resource +:+ b2) +:+ (q1 +:+ v +:+ q2)))
     ∧ (∀ ws : list string,
          _create_path (one_slot b1 b2) resource (one_slot q1 q2) (SList ws)
          = Ok ((b1 +:+ resource +:+ b2)
                +:+ (q1 +:+ comma_joined (map quoted ws) +:+ q2))))
  ∧ _create_path "https://data.medicare.gov/resource/{}.json" "b27b-2uc7"
      "?federal_provider_number={}" (SList ["123"; "456"; "789"; "012"])
    = Ok ("https://data.medicare.gov/resource/b27b-2uc7.json?federal_provider_number="
          +:+ dquote +:+ "123" +:+ dquote +:+ ", " +:+ dquote +:+ "456" +:+ dquote
          +:+ ", " +:+ dquote +:+ "789" +:+ dquote +:+ ", " +:+ dquote +:+ "012"
          +:+ dquote)
  ∧ _create_path "https://data.medicare.gov/resource/{}.json" "b27b-2uc7"
      "?federal_provider_number={}" (SList [])
    = Ok "https://data.medicare.gov/resource/b27b-2uc7.json?federal_provider_number=".
Proof.
  split; [|by split].
  intros b1 b2 q1 q2 resource Hb1 Hb2 Hq1 Hq2. split.
  - intros v. rewrite create_path_text by done. by rewrite !app_assoc_string.
  - intros ws. rewrite create_path_list by done.
    by rewrite str_join_comma_joined, !app_assoc_string.
Qed.

Lemma create_path_composes_witness :
  _create_path "https://data.medicare.gov/resource/{}.json" "b27b-2uc7"
    "?federal_provider_number={}" (SText "123")
  = Ok "https://data.medicare.gov/resource/b27b-2uc7.json?federal_provider_number=123"
  ∧ _create_path "https://data.medicare.gov/resource/{}.json" "b27b-2uc7"
      "?federal_provider_number={}" (SList ["123"; "456"; "789"])
    = Ok ("https://data.medicare.gov/resource/b27b-2uc7.json?federal_provider_number="
          +:+ dquote +:+ "123" +:+ dquote +:+ ", " +:+ dquote +:+ "456" +:+ dquote
          +:+ ", " +:+ dquote +:+ "789" +:+ dquote).
Proof.
  destruct (proj1 create_path_composes "https://data.medicare.gov/resource/" ".json"
              "?federal_provider_number=" EmptyString "b27b-2uc7"
              eq_refl eq_refl eq_refl eq_refl) as [Htext Hlist].
  split.
  - exact (Htext "123").
  - exact (Hlist ["123"; "456"; "789"]).
Defined.

(** ** The category labels *)

(** C7: resolving the data-source key of a category of the table gives
    the label of that category, and resolving a value that is the key of
    no category gives the empty text. *)
Theorem resolve_name_left_inverse :
  (∀ (category : string) (value : gmap string string),
     (category, value) ∈ FACILITY_TYPES →
     ∃ key label,
       value !! "resource" = Some key ∧ value !! "name" = Some label
       ∧ _resolve_name FACILITY_TYPES (SText key) = Some label)
  ∧ (∀ resource : slot_value,
       (∀ (category : string) (value : gmap string string) (key : string),
          (category, value) ∈ FACILITY_TYPES →
          value !! "resource" = Some key → resource ≠ SText key) →
       _resolve_name FACILITY_TYPES resource = Some EmptyString).
Proof.
  split.
  - intros category value Hin. unfold FACILITY_TYPES in Hin.
    repeat (apply elem_of_cons in Hin as [Hin|Hin]);
      [| | |by apply elem_of_nil in Hin]; inversion Hin; subst; clear Hin.
    + by exists "xubh-q36u", "hospital".
    + by exists "b27b-2uc7", "nursing home".
    + by exists "9wzi-peqs", "home health agency".
  - intros resource Hother.
    assert (resource ≠ SText "xubh-q36u") as H1.
    { apply (Hother "hospital"
               (list_to_map [ ("name", "hospital"); ("resource", "xubh-q36u") ]));
        [|reflexivity]. apply elem_of_cons. by left. }
    assert (resource ≠ SText "b27b-2uc7") as H2.
    { apply (Hother "nursing_home"
               (list_to_map [ ("name", "nursing home"); ("resource", "b27b-2uc7") ]));
        [|reflexivity]. apply elem_of_cons. right. apply elem_of_cons. by left. }
    assert (resource ≠ SText "9wzi-peqs") as H3.
    { apply (Hother "home_health"
               (list_to_map [ ("name", "home health agency");
                              ("resource", "9wzi-peqs") ]));
        [|reflexivity]. do 2 (apply elem_of_cons; right). apply elem_of_cons. by left. }
    unfold FACILITY_TYPES. cbn [_resolve_name].
    rewrite !bool_decide_eq_false_2; [done|..]; intros Heq; symmetry in Heq; auto.
Qed.

Lemma resolve_name_left_inverse_witness :
  (∃ key label,
     (list_to_map [ ("name", "nursing home"); ("resource", "b27b-2uc7") ]
        : gmap string string) !! "resource" = Some key
     ∧ (list_to_map [ ("name", "nursing home"); ("resource", "b27b-2uc7") ]
          : gmap string string) !! "name" = Some label
     ∧ _resolve_name FACILITY_TYPES (SText key) = Some label)
  ∧ _resolve_name FACILITY_TYPES (SText "unknown") = Some EmptyString.
Proof.
  split.
  - apply (proj1 resolve_name_left_inverse "nursing_home").
    apply elem_of_cons. right. apply elem_of_cons. by left.
  - apply (proj2 resolve_name_left_inverse).
    intros category value key Hin Hkey. unfold FACILITY_TYPES in Hin.
    repeat (apply elem_of_cons in Hin as [Hin|Hin]);
      [| | |by apply elem_of_nil in Hin]; inversion Hin; subst; clear Hin;
      inversion Hkey; discriminate.
Defined.

(** ** Messages and addresses: the templates of the actions *)

Lemma format_address (a c s z : string) :
  str_format "{}, {}, {} {}" [a; c; s; z]
  = Ok (a +:+ ", " +:+ c +:+ ", " +:+ s +:+ " " +:+ z).
Proof. cbv -[String.append]. by rewrite app_nil_r_string. Qed.

Lemma format_title (t : string) : str_format "{}" [t] = Ok t.
Proof. cbv -[String.append]. by rewrite app_nil_r_string. Qed.

Lemma format_here_is (label : string) :
  str_format "Here is a {} near you:" [label]
  = Ok ("Here is a " +:+ label +:+ " near you:").
Proof. by cbv -[String.append]. Qed.

Lemma format_here_are (count label : string) :
  str_format "Here are {} {}s near you:" [count; label]
  = Ok ("Here are " +:+ count +:+ " " +:+ label +:+ "s near you:").
Proof. by cbv -[String.append]. Qed.

Lemma format_sorry (label place : string) :
  str_format "Sorry, we could not find a {} in {}." [label; place]
  = Ok ("Sorry, we could not find a " +:+ label +:+ " in " +:+ place +:+ ".").
Proof. by cbv -[String.append]. Qed.

(** C6: when the number of presented results is not one, the summary
    names the label in the plural, home health agencies for the home
    health agency and the label followed by an s for any other label
    (hospitals, nursing homes); with exactly one result the label stays in
    the singular. *)
Theorem summary_pluralizes (count : nat) (label : string) :
  (count ≠ 1 →
   SubmitFacilityForm.summary count (Some label)
   = Ok ("Here are " +:+ str_of_nat count +:+ " " +:+ pluralize label
         +:+ " near you:"))
  ∧ (count = 1 →
     SubmitFacilityForm.summary count (Some label)
     = Ok ("Here is a " +:+ label +:+ " near you:"))
  ∧ pluralize "home health agency" = "home health agencies"
  ∧ pluralize "hospital" = "hospitals"
  ∧ pluralize "nursing home" = "nursing homes".
Proof.
  repeat split.
  - intros Hcount. unfold SubmitFacilityForm.summary.
    rewrite (proj2 (Nat.eqb_neq count 1) Hcount).
    unfold pluralize. case_bool_decide as Hlabel.
    + inversion Hlabel; subst. by rewrite format_here_are.
    + rewrite format_here_are.
      destruct (String.eqb_spec label "home health agency") as [->|_]; [done|].
      cbn [str_of_option default]. by rewrite (app_assoc_string label).
  - intros ->. apply format_here_is.
Qed.

Lemma summary_pluralizes_witness :
  SubmitFacilityForm.summary 2 (Some "home health agency")
  = Ok "Here are 2 home health agencies near you:"
  ∧ SubmitFacilityForm.summary 1 (Some "home health agency")
    = Ok "Here is a home health agency near you:".
Proof.
  split.
  - apply (proj1 (summary_pluralizes 2 "home health agency")). lia.
  - apply (proj1 (proj2 (summary_pluralizes 1 "home health agency"))). reflexivity.
Defined.

(** ** The two dispatches on the data-source key *)

Lemma address_dispatch (facility_type : slot_value) (selected : record) :
  FindHealthCareAddress.address facility_type selected
  = if slot_is facility_type "xubh-q36u" then
      address_with "address" "city" "state" "zip_code" selected
    else if slot_is facility_type "b27b-2uc7" then
      address_with "provider_address" "provider_city" "provider_state"
        "provider_zip_code" selected
    else address_with "address" "city" "state" "zip" selected.
Proof. reflexivity. Qed.

Lemma button_dispatch (facility_type : slot_value) (r : record) :
  SubmitFacilityForm.facility_button facility_type r
  = if slot_is facility_type "xubh-q36u" then
      button_with_get "provider_id" "hospital_name" r
    else if slot_is facility_type "b27b-2uc7" then
      button_with "federal_provider_number" "provider_name" r
    else button_with "provider_number" "provider_name" r.
Proof.
  unfold SubmitFacilityForm.facility_button, button_with, button_with_get.
  change (FACILITY_TYPES_at "hospital" "resource") with (Ok (A:=string) "xubh-q36u").
  change (FACILITY_TYPES_at "nursing_home" "resource") with (Ok (A:=string) "b27b-2uc7").
  cbn [bind].
  destruct (slot_is facility_type "xubh-q36u");
    [|destruct (slot_is facility_type "b27b-2uc7")].
  - destruct (getitem r "hospital_name") as [name|e]; cbn [bind]; [|done].
    destruct (r !! "provider_id") as [id|]; cbn [bind]; [|done].
    by rewrite format_title.
  - destruct (getitem r "federal_provider_number") as [id|e]; cbn [bind]; [|done].
    destruct (getitem r "provider_name") as [name|e]; cbn [bind]; [|done].
    by rewrite format_title.
  - destruct (getitem r "provider_number") as [id|e]; cbn [bind]; [|done].
    destruct (getitem r "provider_name") as [name|e]; cbn [bind]; [|done].
    by rewrite format_title.
Qed.

Lemma getitem_Some {V : Type} (d : gmap string V) (k : string) (v : V) :
  d !! k = Some v → getitem d k = Ok v.
Proof. unfold getitem. by intros ->. Qed.

Lemma address_with_Ok (street city state postal a c s z : string) (r : record) :
  r !! street = Some a → r !! city = Some c →
  r !! state = Some s → r !! postal = Some z →
  address_with street city state postal r
  = Ok (str_title a +:+ ", " +:+ str_title c +:+ ", " +:+ str_upper s
        +:+ " " +:+ str_title z).
Proof.
  intros Ha Hc Hs Hz. unfold address_with.
  rewrite (getitem_Some _ _ _ Ha), (getitem_Some _ _ _ Hc),
    (getitem_Some _ _ _ Hs), (getitem_Some _ _ _ Hz).
  cbn [bind]. apply format_address.
Qed.

Lemma address_with_missing (street city state postal : string) (r : record) :
  r !! street = None ∨ r !! city = None ∨ r !! state = None ∨ r !! postal = None →
  ∃ field, field ∈ [street; city; state; postal] ∧ r !! field = None
           ∧ address_with street city state postal r = Raise (KeyError (Some field)).
Proof.
  intros Hmiss. unfold address_with, getitem.
  destruct (r !! street) as [a|] eqn:Ha; cbn [bind];
    [|exists street; by eauto using list_elem_of_here].
  destruct (r !! city) as [c|] eqn:Hc; cbn [bind];
    [|exists city; by eauto using list_elem_of_here, list_elem_of_further].
  destruct (r !! state) as [s|] eqn:Hs; cbn [bind];
    [|exists state; by eauto using list_elem_of_here, list_elem_of_further].
  destruct (r !! postal) as [z|] eqn:Hz; cbn [bind];
    [|exists postal; by eauto 6 using list_elem_of_here, list_elem_of_further].
  by destruct Hmiss as [?|[?|[?|?]]].
Qed.

Lemma address_fields_cases (key street city state postal : string) :
  address_fields key = Some (street, city, state, postal) →
  (key = "xubh-q36u"
     ∧ (street, city, state, postal) = ("address", "city", "state", "zip_code"))
  ∨ (key = "b27b-2uc7"
     ∧ (street, city, state, postal)
       = ("provider_address", "provider_city", "provider_state", "provider_zip_code"))
  ∨ (key = "9wzi-peqs"
     ∧ (street, city, state, postal) = ("address", "city", "state", "zip")).
Proof.
  unfold address_fields.
  destruct (String.eqb_spec key "xubh-q36u") as [->|_]; [intros [= <- <- <- <-]; auto|].
  destruct (String.eqb_spec key "b27b-2uc7") as [->|_]; [intros [= <- <- <- <-]; auto|].
  destruct (String.eqb_spec key "9wzi-peqs") as [->|_]; [intros [= <- <- <- <-]; auto 6|].
  done.
Qed.

Lemma search_fields_cases (key id_field name_field : string) :
  search_fields key = Some (id_field, name_field) →
  (key = "xubh-q36u" ∧ (id_field, name_field) = ("provider_id", "hospital_name"))
  ∨ (key = "b27b-2uc7"
     ∧ (id_field, name_field) = ("federal_provider_number", "provider_name"))
  ∨ (key = "9wzi-peqs" ∧ (id_field, name_field) = ("provider_number", "provider_name")).
Proof.
  unfold search_fields.
  destruct (String.eqb_spec key "xubh-q36u") as [->|_]; [intros [= <- <-]; auto|].
  destruct (String.eqb_spec key "b27b-2uc7") as [->|_]; [intros [= <- <-]; auto|].
  destruct (String.eqb_spec key "9wzi-peqs") as [->|_]; [intros [= <- <-]; auto|].
  done.
Qed.

(** The address of a record that has the fields of its data source. *)
Lemma address_of_fields (key street city state postal a c s z : string) (r : record) :
  address_fields key = Some (street, city, state, postal) →
  r !! street = Some a → r !! city = Some c →
  r !! state = Some s → r !! postal = Some z →
  FindHealthCareAddress.address (SText key) r
  = Ok (str_title a +:+ ", " +:+ str_title c +:+ ", " +:+ str_upper s
        +:+ " " +:+ str_title z).
Proof.
  intros Hf Ha Hc Hs Hz. rewrite address_dispatch.
  destruct (address_fields_cases _ _ _ _ _ Hf) as [[-> [= -> -> -> ->]]|[[-> [= -> -> -> ->]]|[-> [= -> -> -> ->]]]];
    cbn [slot_is]; by apply address_with_Ok.
Qed.

(** ** Addresses *)

(** C2: for every record that has the street, city, state and postal
    fields of its data source, as ASCII texts, the address is the street
    and the city in title case, the state in upper case and the postal
    code through the title-case transform, joined as street, city, STATE
    POSTAL; the nursing-home record of scenario D gives 1 Main St, Boston,
    MA 02108, and a record in capitals or in mixed case comes out in the
    same casing. *)
Theorem address_normalized :
  (∀ (key street city state postal a c s z : string) (r : record),
     address_fields key = Some (street, city, state, postal) →
     r !! street = Some a → r !! city = Some c →
     r !! state = Some s → r !! postal = Some z →
     ascii_text a = true → ascii_text c = true →
     ascii_text s = true → ascii_text z = true →
     FindHealthCareAddress.address (SText key) r
     = Ok (str_title a +:+ ", " +:+ str_title c +:+ ", " +:+ str_upper s
           +:+ " " +:+ str_title z))
  ∧ FindHealthCareAddress.address (SText "b27b-2uc7") acme_home
    = Ok "1 Main St, Boston, MA 02108"
  ∧ FindHealthCareAddress.address (SText "xubh-q36u")
      (list_to_map [ ("address", "55 FRUIT STREET"); ("city", "BOSTON");
                     ("state", "MA"); ("zip_code", "02114") ])
    = Ok "55 Fruit Street, Boston, MA 02114"
  ∧ FindHealthCareAddress.address (SText "9wzi-peqs")
      (list_to_map [ ("address", "3rd o'neil AVE"); ("city", "st. PAUL");
                     ("state", "Mn"); ("zip", "55101-1234") ])
    = Ok "3Rd O'Neil Ave, St. Paul, MN 55101-1234"
  ∧ str_title "ABCDEFGHIJKLMNOPQRSTUVWXYZ abcdefghijklmnopqrstuvwxyz zA"
    = "Abcdefghijklmnopqrstuvwxyz Abcdefghijklmnopqrstuvwxyz Za"
  ∧ str_upper "abcdefghijklmnopqrstuvwxyz ABCDEFGHIJKLMNOPQRSTUVWXYZ 0123456789"
    = "ABCDEFGHIJKLMNOPQRSTUVWXYZ ABCDEFGHIJKLMNOPQRSTUVWXYZ 0123456789".
Proof.
  split; [|by repeat split].
  intros key street city state postal a c s z r Hf Ha Hc Hs Hz _ _ _ _.
  by apply (address_of_fields key street city state postal).
Qed.

Lemma address_normalized_witness :
  FindHealthCareAddress.address (SText "xubh-q36u")
    (list_to_map [ ("address", "55 fruit street"); ("city", "boston");
                   ("state", "ma"); ("zip_code", "02114") ])
  = Ok "55 Fruit Street, Boston, MA 02114".
Proof.
  exact (proj1 address_normalized "xubh-q36u" "address" "city" "state" "zip_code"
           "55 fruit street" "boston" "ma" "02114"
           (list_to_map [ ("address", "55 fruit street"); ("city", "boston");
                          ("state", "ma"); ("zip_code", "02114") ])
           eq_refl eq_refl eq_refl eq_refl eq_refl
           eq_refl eq_refl eq_refl eq_refl).
Defined.

(** ** Identifier lookup *)

(** C4: an identifier lookup whose result list is empty sets the facility
    address to the text not found; with a result list that is not empty
    the address is the one of its first element, whatever follows it. *)
Theorem identifier_lookup (requests_get_json : string → result (list record))
    (tracker : Tracker) (path : string) :
  FindHealthCareAddress.full_path (get_slot tracker "facility_type")
    (get_slot tracker "facility_id") = Ok path →
  (requests_get_json path = Ok [] →
   FindHealthCareAddress.run requests_get_json tracker
   = Ok (Outcome [SlotSet "facility_address" (SText "not found")] []
           [FindHealthCareAddress.no_address_found]))
  ∧ (∀ (selected : record) (rest : list record),
       requests_get_json path = Ok (selected :: rest) →
       FindHealthCareAddress.run requests_get_json tracker
       = rmap (λ address, Outcome [SlotSet "facility_address" (SText address)] [] [])
           (FindHealthCareAddress.address (get_slot tracker "facility_type")
              selected)).
Proof.
  intros Hpath. unfold FindHealthCareAddress.run. rewrite Hpath. cbn [bind].
  split.
  - by intros ->.
  - by intros selected rest ->.
Qed.

Lemma identifier_lookup_witness :
  FindHealthCareAddress.run (λ _, Ok [])
    {| slots := list_to_map [ ("facility_type", SText "b27b-2uc7");
                              ("facility_id", SText "123") ] |}
  = Ok (Outcome [SlotSet "facility_address" (SText "not found")] []
          [FindHealthCareAddress.no_address_found])
  ∧ FindHealthCareAddress.run (λ _, Ok [acme_home; salem_agency])
      {| slots := list_to_map [ ("facility_type", SText "b27b-2uc7");
                                ("facility_id", SText "123") ] |}
    = Ok (Outcome [SlotSet "facility_address"
                     (SText "1 Main St, Boston, MA 02108")] [] []).
Proof.
  split.
  - exact (proj1 (identifier_lookup (λ _, Ok [])
                    {| slots := list_to_map [ ("facility_type", SText "b27b-2uc7");
                                              ("facility_id", SText "123") ] |}
                    "https://data.medicare.gov/resource/b27b-2uc7.json?federal_provider_number=123"
                    eq_refl) eq_refl).
  - exact (proj2 (identifier_lookup (λ _, Ok [acme_home; salem_agency])
                    {| slots := list_to_map [ ("facility_type", SText "b27b-2uc7");
                                              ("facility_id", SText "123") ] |}
                    "https://data.medicare.gov/resource/b27b-2uc7.json?federal_provider_number=123"
                    eq_refl) acme_home [salem_agency] eq_refl).
Defined.

(** ** Missing fields *)

Lemma button_with_missing (id_field name_field : string) (r : record) :
  r !! id_field = None ∨ r !! name_field = None →
  (r !! id_field = None
   ∧ button_with id_field name_field r = Raise (KeyError (Some id_field)))
  ∨ (r !! name_field = None
     ∧ button_with id_field name_field r = Raise (KeyError (Some name_field))).
Proof.
  intros Hmiss. unfold button_with, getitem.
  destruct (r !! id_field) as [id|] eqn:Hid; cbn [bind]; [|by left].
  destruct (r !! name_field) as [name|] eqn:Hname; cbn [bind]; [|by right].
  by destruct Hmiss.
Qed.

Lemma button_with_get_missing (id_field name_field : string) (r : record) :
  r !! id_field = None ∨ r !! name_field = None →
  (r !! name_field = None
   ∧ button_with_get id_field name_field r = Raise (KeyError (Some name_field)))
  ∨ (r !! id_field = None
     ∧ button_with_get id_field name_field r = Raise TypeError).
Proof.
  intros Hmiss. unfold button_with_get, getitem.
  destruct (r !! name_field) as [name|] eqn:Hname; cbn [bind]; [|by left].
  destruct (r !! id_field) as [id|] eqn:Hid; [|by right].
  by destruct Hmiss.
Qed.

(** The button of a record that lacks a field of its data source. *)
Lemma button_missing (key id_field name_field : string) (r : record) :
  search_fields key = Some (id_field, name_field) →
  r !! id_field = None ∨ r !! name_field = None →
  (r !! id_field = None
   ∧ SubmitFacilityForm.facility_button (SText key) r
     = Raise (KeyError (Some id_field)))
  ∨ (r !! name_field = None
     ∧ SubmitFacilityForm.facility_button (SText key) r
       = Raise (KeyError (Some name_field)))
  ∨ (key = "xubh-q36u" ∧ r !! id_field = None
     ∧ SubmitFacilityForm.facility_button (SText key) r = Raise TypeError).
Proof.
  intros Hf Hmiss. rewrite button_dispatch.
  destruct (search_fields_cases _ _ _ Hf) as [[-> [= -> ->]]|[[-> [= -> ->]]|[-> [= -> ->]]]];
    cbn [slot_is String.eqb Ascii.eqb Bool.eqb].
  - destruct (button_with_get_missing _ _ _ Hmiss) as [[? ->]|[? ->]]; auto.
  - destruct (button_with_missing _ _ _ Hmiss) as [[? ->]|[? ->]]; auto.
  - destruct (button_with_missing _ _ _ Hmiss) as [[? ->]|[? ->]]; auto.
Qed.

(** The address of a record that lacks a field of its data source. *)
Lemma address_missing (key street city state postal : string) (r : record) :
  address_fields key = Some (street, city, state, postal) →
  r !! street = None ∨ r !! city = None ∨ r !! state = None ∨ r !! postal = None →
  ∃ field, field ∈ [street; city; state; postal] ∧ r !! field = None
           ∧ FindHealthCareAddress.address (SText key) r
             = Raise (KeyError (Some field)).
Proof.
  intros Hf Hmiss. rewrite address_dispatch.
  destruct (address_fields_cases _ _ _ _ _ Hf) as [[-> [= -> -> -> ->]]|[[-> [= -> -> -> ->]]|[-> [= -> -> -> ->]]]];
    cbn [slot_is String.eqb Ascii.eqb Bool.eqb]; by apply address_with_missing.
Qed.

(** X17: for every data source and every record, a field of that data
    source that is absent from the record makes the normalization fail:
    no button and no address is produced.  The failure is the [KeyError]
    of an absent field, or, for a hospital record without its identifier,
    the [TypeError] of joining the payload with [None]; the action that
    reads the record fails too. *)
Theorem missing_field_raises (key : string) (r : record) :
  (∀ id_field name_field : string,
     search_fields key = Some (id_field, name_field) →
     r !! id_field = None ∨ r !! name_field = None →
     (∃ field, (field = id_field ∨ field = name_field) ∧ r !! field = None
               ∧ SubmitFacilityForm.facility_button (SText key) r
                 = Raise (KeyError (Some field)))
     ∨ (key = "xubh-q36u" ∧ r !! id_field = None
        ∧ SubmitFacilityForm.facility_button (SText key) r = Raise TypeError))
  ∧ (∀ street city state postal : string,
       address_fields key = Some (street, city, state, postal) →
       r !! street = None ∨ r !! city = None ∨ r !! state = None
       ∨ r !! postal = None →
       ∃ field, field ∈ [street; city; state; postal] ∧ r !! field = None
                ∧ FindHealthCareAddress.address (SText key) r
                  = Raise (KeyError (Some field)))
  ∧ (∀ (requests_get_json : string → result (list record)) (tracker : Tracker)
       (results : list record) (id_field name_field : string),
       get_slot tracker "facility_type" = SText key →
       search_fields key = Some (id_field, name_field) →
       _find_facilities requests_get_json (get_slot tracker "location")
         (SText key) = Ok results →
       r ∈ take 3 results →
       r !! id_field = None ∨ r !! name_field = None →
       raises (SubmitFacilityForm.run requests_get_json tracker))
  ∧ (∀ (requests_get_json : string → result (list record)) (tracker : Tracker)
       (path : string) (rest : list record) (street city state postal : string),
       get_slot tracker "facility_type" = SText key →
       address_fields key = Some (street, city, state, postal) →
       FindHealthCareAddress.full_path (SText key)
         (get_slot tracker "facility_id") = Ok path →
       requests_get_json path = Ok (r :: rest) →
       r !! street = None ∨ r !! city = None ∨ r !! state = None
       ∨ r !! postal = None →
       raises (FindHealthCareAddress.run requests_get_json tracker)).
Proof.
  split; [|split; [|split]].
  - intros id_field name_field Hf Hmiss.
    destruct (button_missing _ _ _ _ Hf Hmiss) as [[? ?]|[[? ?]|?]]; eauto 7.
  - intros *. apply address_missing.
  - intros get tracker results id_field name_field Hft Hf Hfind Hin Hmiss.
    unfold SubmitFacilityForm.run. rewrite Hft, Hfind. cbn [bind].
    destruct results as [|r0 results]; [by apply elem_of_nil in Hin|].
    cbn [length Nat.eqb].
    assert (raises (mapM (SubmitFacilityForm.facility_button (SText key))
                      (take 3 (r0 :: results)))) as [e ->]; [|by eexists].
    apply (mapM_raises _ _ r Hin).
    destruct (button_missing _ _ _ _ Hf Hmiss) as [[_ ->]|[[_ ->]|(_ & _ & ->)]];
      by eexists.
  - intros get tracker path rest street city state postal Hft Hf Hpath Hget Hmiss.
    unfold FindHealthCareAddress.run. rewrite Hft, Hpath. cbn [bind].
    rewrite Hget. cbn [bind].
    destruct (address_missing _ _ _ _ _ _ Hf Hmiss) as (field & _ & _ & ->).
    by eexists.
Qed.

Lemma missing_field_raises_witness :
  ((∃ field, (field = "provider_id" ∨ field = "hospital_name")
             ∧ general_hospital !! field = None
             ∧ SubmitFacilityForm.facility_button (SText "xubh-q36u") general_hospital
               = Raise (KeyError (Some field)))
   ∨ ("xubh-q36u" = "xubh-q36u" ∧ general_hospital !! "provider_id" = None
      ∧ SubmitFacilityForm.facility_button (SText "xubh-q36u") general_hospital
        = Raise TypeError))
  ∧ (∃ field, field ∈ ["address"; "city"; "state"; "zip_code"]
              ∧ general_hospital !! field = None
              ∧ FindHealthCareAddress.address (SText "xubh-q36u") general_hospital
                = Raise (KeyError (Some field)))
  ∧ raises (SubmitFacilityForm.run (λ _, Ok [general_hospital])
              (boston_tracker "xubh-q36u"))
  ∧ raises (FindHealthCareAddress.run (λ _, Ok [general_hospital])
              (boston_tracker "xubh-q36u")).
Proof.
  destruct (missing_field_raises "xubh-q36u" general_hospital)
    as (Hbutton & Haddress & Hsubmit & Hfind).
  split; [|split; [|split]].
  - apply (Hbutton "provider_id" "hospital_name"); [reflexivity|].
    left. reflexivity.
  - apply (Haddress "address" "city" "state" "zip_code"); [reflexivity|].
    left. reflexivity.
  - apply (Hsubmit (λ _, Ok [general_hospital]) (boston_tracker "xubh-q36u")
             [general_hospital] "provider_id" "hospital_name");
      [reflexivity|reflexivity|reflexivity|apply list_elem_of_here|].
    left. reflexivity.
  - apply (Hfind (λ _, Ok [general_hospital]) (boston_tracker "xubh-q36u")
             "https://data.medicare.gov/resource/xubh-q36u.json?provider_id=123"
             [] "address" "city" "state" "zip_code");
      [reflexivity|reflexivity|reflexivity|reflexivity|].
    left. reflexivity.
Defined.

(** C5 (the code departs from the claim): a record without its
    identifier field does not fail alike in the three branches of the
    search.  The hospital branch reads provider_id with [get], so the
    absence is only met when the payload is joined, as a [TypeError] that
    names no field; the two other branches read their identifier by
    subscript and fail with the [KeyError] of the field. *)
Theorem missing_identifier_diverges (r : record) :
  r !! "provider_id" = None →
  r !! "federal_provider_number" = None →
  r !! "provider_number" = None →
  is_Some (r !! "hospital_name") →
  SubmitFacilityForm.facility_button (SText "xubh-q36u") r = Raise TypeError
  ∧ SubmitFacilityForm.facility_button (SText "b27b-2uc7") r
    = Raise (KeyError (Some "federal_provider_number"))
  ∧ SubmitFacilityForm.facility_button (SText "9wzi-peqs") r
    = Raise (KeyError (Some "provider_number"))
  ∧ ∀ (requests_get_json : string → result (list record)) (tracker : Tracker)
      (rest : list record),
      get_slot tracker "facility_type" = SText "xubh-q36u" →
      _find_facilities requests_get_json (get_slot tracker "location")
        (SText "xubh-q36u") = Ok (r :: rest) →
      SubmitFacilityForm.run requests_get_json tracker = Raise TypeError.
Proof.
  intros Hid Hfed Hnum [name Hname].
  assert (SubmitFacilityForm.facility_button (SText "xubh-q36u") r = Raise TypeError)
    as Hhospital.
  { rewrite button_dispatch. cbn [slot_is String.eqb Ascii.eqb Bool.eqb].
    unfold button_with_get. rewrite (getitem_Some _ _ _ Hname). cbn [bind].
    by rewrite Hid. }
  split; [exact Hhospital|]. split; [|split].
  - rewrite button_dispatch. cbn [slot_is String.eqb Ascii.eqb Bool.eqb].
    unfold button_with, getitem. by rewrite Hfed.
  - rewrite button_dispatch. cbn [slot_is String.eqb Ascii.eqb Bool.eqb].
    unfold button_with, getitem. by rewrite Hnum.
  - intros get tracker rest Hft Hfind. unfold SubmitFacilityForm.run.
    rewrite Hft, Hfind. cbn [bind length Nat.eqb take mapM].
    by rewrite Hhospital.
Qed.

Lemma missing_identifier_diverges_witness :
  SubmitFacilityForm.facility_button (SText "xubh-q36u") general_hospital
  = Raise TypeError
  ∧ SubmitFacilityForm.facility_button (SText "b27b-2uc7") general_hospital
    = Raise (KeyError (Some "federal_provider_number"))
  ∧ SubmitFacilityForm.facility_button (SText "9wzi-peqs") general_hospital
    = Raise (KeyError (Some "provider_number"))
  ∧ SubmitFacilityForm.run (λ _, Ok [general_hospital]) (boston_tracker "xubh-q36u")
    = Raise TypeError.
Proof.
  destruct (missing_identifier_diverges general_hospital eq_refl eq_refl eq_refl
              (ex_intro _ "general hospital" eq_refl))
    as (Hhospital & Hnursing & Hagency & Hrun).
  split; [exact Hhospital|]. split; [exact Hnursing|]. split; [exact Hagency|].
  exact (Hrun (λ _, Ok [general_hospital]) (boston_tracker "xubh-q36u") []
           eq_refl eq_refl).
Defined.

(** ** Search submission *)

Lemma summary_total (count : nat) (button_name : option string) :
  ∃ message, SubmitFacilityForm.summary count button_name = Ok message.
Proof.
  unfold SubmitFacilityForm.summary. destruct (count =? 1).
  - rewrite format_here_is. by eexists.
  - rewrite format_here_are. by eexists.
Qed.

(** C3: whatever the length of the list the data source returns, the
    search submission presents at most three entries, the entries of the
    first three records of the list in their order: the action returns
    exactly when these records have their entries, and then presents
    them and no other. *)
Theorem search_takes_first_three
    (requests_get_json : string → result (list record)) (tracker : Tracker)
    (results : list record) :
  _find_facilities requests_get_json (get_slot tracker "location")
    (get_slot tracker "facility_type") = Ok results →
  (∀ out : outcome,
     SubmitFacilityForm.run requests_get_json tracker = Ok out →
     ∃ text entries,
       out = Outcome [] [Message text entries] []
       ∧ length entries ≤ 3
       ∧ length entries = Nat.min 3 (length results)
       ∧ mapM (SubmitFacilityForm.facility_button (get_slot tracker "facility_type"))
           (take 3 results) = Ok entries)
  ∧ (∀ entries : list button,
       mapM (SubmitFacilityForm.facility_button (get_slot tracker "facility_type"))
         (take 3 results) = Ok entries →
       ∃ text,
         SubmitFacilityForm.run requests_get_json tracker
         = Ok (Outcome [] [Message text entries] [])).
Proof.
  intros Hfind. unfold SubmitFacilityForm.run. rewrite Hfind. cbn [bind].
  assert (∃ loc, get_slot tracker "location" = SText loc) as [loc Hloc].
  { unfold _find_facilities, _find_facilities_full_path in Hfind.
    destruct (get_slot tracker "location"); [done|by eexists|done]. }
  rewrite Hloc. cbn [bind].
  destruct results as [|r results]; cbn [length Nat.eqb].
  - rewrite format_sorry. cbn [bind]. split.
    + intros out [= <-]. eexists _, []. repeat split. simpl. lia.
    + intros entries [= <-]. by eexists.
  - split.
    + intros out Hrun.
      destruct (mapM _ (take 3 (r :: results))) as [entries|e] eqn:Hentries;
        cbn [bind] in Hrun; [|done].
      destruct (SubmitFacilityForm.summary _ _) as [text|e]; cbn [bind] in Hrun;
        [|done].
      injection Hrun as <-. exists text, entries.
      apply mapM_length in Hentries as Hlen. rewrite length_take in Hlen.
      cbn [length] in Hlen. repeat split; lia.
    + intros entries ->. cbn [bind].
      destruct (summary_total (length entries)
                  (_resolve_name FACILITY_TYPES (get_slot tracker "facility_type")))
        as [text ->].
      by eexists.
Qed.

Lemma search_takes_first_three_witness :
  ∃ text,
    SubmitFacilityForm.run
      (λ _, Ok [ hospital_record "220071" "massachusetts general hospital";
                 hospital_record "220110" "brigham and women's hospital";
                 hospital_record "220086" "beth israel deaconess";
                 hospital_record "220116" "tufts medical center" ])
      (boston_tracker "xubh-q36u")
    = Ok (Outcome []
            [Message text
               [ Button "Massachusetts General Hospital" (select_payload "220071");
                 Button "Brigham And Women'S Hospital" (select_payload "220110");
                 Button "Beth Israel Deaconess" (select_payload "220086") ]]
            []).
Proof.
  exact (proj2 (search_takes_first_three
                  (λ _, Ok [ hospital_record "220071" "massachusetts general hospital";
                             hospital_record "220110" "brigham and women's hospital";
                             hospital_record "220086" "beth israel deaconess";
                             hospital_record "220116" "tufts medical center" ])
                  (boston_tracker "xubh-q36u")
                  [ hospital_record "220071" "massachusetts general hospital";
                    hospital_record "220110" "brigham and women's hospital";
                    hospital_record "220086" "beth israel deaconess";
                    hospital_record "220116" "tufts medical center" ]
                  eq_refl)
           [ Button "Massachusetts General Hospital" (select_payload "220071");
             Button "Brigham And Women'S Hospital" (select_payload "220110");
             Button "Beth Israel Deaconess" (select_payload "220086") ]
           eq_refl).
Defined.

(** * Further properties of the actions *)

(** ** Characters *)

Lemma to_upper_digit (c : ascii) : is_digit (to_upper c) = is_digit c.
Proof. by destruct c as [[] [] [] [] [] [] [] []]. Qed.

Lemma to_upper_of_digit (c : ascii) : is_digit c = true → to_upper c = c.
Proof. by destruct c as [[] [] [] [] [] [] [] []]. Qed.

Lemma to_upper_no_letter (c : ascii) : is_cased c = false → to_upper c = c.
Proof. by destruct c as [[] [] [] [] [] [] [] []]. Qed.

Lemma to_lower_no_letter (c : ascii) : is_cased c = false → to_lower c = c.
Proof. by destruct c as [[] [] [] [] [] [] [] []]. Qed.

Lemma all_digits_upper (s : string) :
  all_chars is_digit (str_upper s) = all_chars is_digit s.
Proof.
  induction s as [|c s IH]; [done|]. unfold str_upper in *.
  cbn [all_chars map_chars]. by rewrite to_upper_digit, IH.
Qed.

Lemma str_isdigit_upper (s : string) : str_isdigit (str_upper s) = str_isdigit s.
Proof.
  destruct s as [|c s]; [done|].
  change (all_chars is_digit (str_upper (String c s)) = all_chars is_digit (String c s)).
  apply all_digits_upper.
Qed.

Lemma str_upper_digits (s : string) :
  all_chars is_digit s = true → str_upper s = s.
Proof.
  induction s as [|c s IH]; [done|]. unfold str_upper in *.
  cbn [all_chars map_chars]. intros [Hc Hs]%andb_prop.
  by rewrite (to_upper_of_digit _ Hc), IH.
Qed.

Lemma title_from_no_letter (s : string) :
  no_letter s = true → title_from false s = s.
Proof.
  unfold no_letter. intros [_ Hs]%andb_prop.
  induction s as [|c s IH]; [done|]. cbn [all_chars title_from] in *.
  apply andb_prop in Hs as [Hc Hs]. apply negb_true_iff in Hc.
  rewrite Hc, (to_upper_no_letter _ Hc), IH by exact Hs. done.
Qed.

(** ** Search and lookup: further properties of the paths *)

(** X1: the search does not tell apart two ASCII locations that differ
    only in the case of their letters, that is, that have the same upper
    case: they give the same request path, for every value of the
    facility type. *)
Theorem search_ignores_case (loc1 loc2 : string) (resource : slot_value) :
  ascii_text loc1 = true → ascii_text loc2 = true →
  str_upper loc1 = str_upper loc2 →
  _find_facilities_full_path (SText loc1) resource
  = _find_facilities_full_path (SText loc2) resource.
Proof.
  intros _ _ Hup. unfold _find_facilities_full_path.
  assert (str_isdigit loc1 = str_isdigit loc2) as Hd.
  { by rewrite <- (str_isdigit_upper loc1), <- (str_isdigit_upper loc2), Hup. }
  rewrite <- Hd. destruct (str_isdigit loc1) eqn:H1.
  - symmetry in Hd. apply str_isdigit_spec in H1 as [_ H1], Hd as [_ H2].
    rewrite (str_upper_digits _ H1), (str_upper_digits _ H2) in Hup. by subst.
  - by rewrite Hup.
Qed.

Lemma search_ignores_case_witness :
  _find_facilities_full_path (SText "Boston") (SText "b27b-2uc7")
  = _find_facilities_full_path (SText "bOSTON") (SText "b27b-2uc7").
Proof. apply search_ignores_case; reflexivity. Defined.

(** ** Addresses: further properties *)

(** X2: an ASCII postal code without letters (digits, a hyphen, a space)
    comes out of the title-case transform as it went in: for a record
    whose address fields are ASCII texts it closes the address verbatim. *)
Theorem address_keeps_postal_code
    (key street city state postal a c s z : string) (r : record) :
  address_fields key = Some (street, city, state, postal) →
  r !! street = Some a → r !! city = Some c →
  r !! state = Some s → r !! postal = Some z →
  ascii_text a = true → ascii_text c = true → ascii_text s = true →
  no_letter z = true →
  FindHealthCareAddress.address (SText key) r
  = Ok (str_title a +:+ ", " +:+ str_title c +:+ ", " +:+ str_upper s +:+ " " +:+ z).
Proof.
  intros Hf Ha Hc Hs Hz _ _ _ Hno.
  rewrite (address_of_fields _ _ _ _ _ _ _ _ _ _ Hf Ha Hc Hs Hz).
  unfold str_title at 3. by rewrite (title_from_no_letter _ Hno).
Qed.

Lemma address_keeps_postal_code_witness :
  FindHealthCareAddress.address (SText "9wzi-peqs")
    (list_to_map [ ("address", "1 ELM st"); ("city", "salem"); ("state", "or");
                   ("zip", "97301-1234") ])
  = Ok ("1 Elm St" +:+ ", " +:+ "Salem" +:+ ", " +:+ "OR" +:+ " " +:+ "97301-1234").
Proof.
  exact (address_keeps_postal_code "9wzi-peqs" "address" "city" "state" "zip"
           "1 ELM st" "salem" "or" "97301-1234"
           (list_to_map [ ("address", "1 ELM st"); ("city", "salem"); ("state", "or");
                          ("zip", "97301-1234") ])
           eq_refl eq_refl eq_refl eq_refl eq_refl eq_refl eq_refl eq_refl eq_refl).
Defined.

Lemma has_comma_app_r (s t : string) : has_comma t = true → has_comma (s +:+ t) = true.
Proof.
  intros Ht. induction s as [|c s IH]; [done|].
  rewrite app_cons_string. unfold has_comma in *. cbn [all_chars].
  apply negb_true_iff in IH. rewrite IH. by rewrite andb_false_r.
Qed.

Lemma address_with_inv (street city state postal a : string) (r : record) :
  address_with street city state postal r = Ok a →
  ∃ av cv sv zv,
    r !! street = Some av ∧ r !! city = Some cv ∧ r !! state = Some sv
    ∧ r !! postal = Some zv
    ∧ a = str_title av +:+ ", " +:+ str_title cv +:+ ", " +:+ str_upper sv
          +:+ " " +:+ str_title zv.
Proof.
  unfold address_with, getitem.
  destruct (r !! street) as [av|]; cbn [bind]; [|done].
  destruct (r !! city) as [cv|]; cbn [bind]; [|done].
  destruct (r !! state) as [sv|]; cbn [bind]; [|done].
  destruct (r !! postal) as [zv|]; cbn [bind]; [|done].
  rewrite format_address. intros [= <-]. by exists av, cv, sv, zv.
Qed.

Lemma address_has_comma (facility_type : slot_value) (r : record) (a : string) :
  FindHealthCareAddress.address facility_type r = Ok a → has_comma a = true.
Proof.
  rewrite address_dispatch. intros Ha.
  assert (∃ street city state postal, address_with street city state postal r = Ok a)
    as (street & city & state & postal & Hwith).
  { destruct (slot_is facility_type "xubh-q36u");
      [|destruct (slot_is facility_type "b27b-2uc7")]; eauto. }
  apply address_with_inv in Hwith as (av & cv & sv & zv & _ & _ & _ & _ & ->).
  by apply has_comma_app_r.
Qed.

(** X3: no record has the miss sentinel as its address: an address that
    is computed holds a comma, the text not found does not. *)
Theorem address_never_sentinel (facility_type : slot_value) (r : record) (a : string) :
  FindHealthCareAddress.address facility_type r = Ok a →
  has_comma a = true ∧ a ≠ "not found".
Proof.
  intros Ha. apply address_has_comma in Ha. split; [done|].
  intros ->. discriminate Ha.
Qed.

Lemma address_never_sentinel_witness :
  has_comma "1 Main St, Boston, MA 02108" = true
  ∧ "1 Main St, Boston, MA 02108" ≠ "not found".
Proof.
  exact (address_never_sentinel (SText "b27b-2uc7") acme_home
           "1 Main St, Boston, MA 02108" eq_refl).
Defined.

(** X4: whenever the lookup action returns, it has uttered nothing and
    returns one event, which sets facility_address to a text; it prints
    its diagnostic exactly when that text is the miss sentinel. *)
Theorem lookup_outcome_shape (requests_get_json : string → result (list record))
    (tracker : Tracker) (out : outcome) :
  FindHealthCareAddress.run requests_get_json tracker = Ok out →
  ∃ a, events out = [SlotSet "facility_address" (SText a)]
       ∧ uttered out = []
       ∧ (a = "not found" → printed out = [FindHealthCareAddress.no_address_found])
       ∧ (a ≠ "not found" → printed out = []).
Proof.
  unfold FindHealthCareAddress.run.
  destruct (FindHealthCareAddress.full_path _ _) as [path|e]; cbn [bind]; [|done].
  destruct (requests_get_json path) as [[|selected rest]|e]; cbn [bind]; [| |done].
  - intros [= <-]. by exists "not found".
  - destruct (FindHealthCareAddress.address _ selected) as [a|e] eqn:Ha;
      cbn [bind]; [|done].
    intros [= <-]. exists a. repeat split.
    intros ->. by destruct (address_never_sentinel _ _ _ Ha).
Qed.

Lemma lookup_outcome_shape_witness :
  ∃ a, events (Outcome [SlotSet "facility_address"
                          (SText "1 Main St, Boston, MA 02108")] [] [])
       = [SlotSet "facility_address" (SText a)]
       ∧ uttered (Outcome [SlotSet "facility_address"
                             (SText "1 Main St, Boston, MA 02108")] [] []) = []
       ∧ (a = "not found" →
          printed (Outcome [SlotSet "facility_address"
                              (SText "1 Main St, Boston, MA 02108")] [] [])
          = [FindHealthCareAddress.no_address_found])
       ∧ (a ≠ "not found" →
          printed (Outcome [SlotSet "facility_address"
                              (SText "1 Main St, Boston, MA 02108")] [] []) = []).
Proof.
  exact (lookup_outcome_shape (λ _, Ok [acme_home]) (boston_tracker "b27b-2uc7")
           _ eq_refl).
Defined.

(** ** The registry: further properties *)

Lemma ENDPOINTS_registered_keys (key : string) (queries : gmap string string) :
  ENDPOINTS !! key = Some (EndpointQueries queries) → key ∈ registered_keys.
Proof.
  intros H. unfold ENDPOINTS in H.
  apply elem_of_list_to_map in H; [|exact ENDPOINTS_nodup].
  repeat (apply elem_of_cons in H as [H|H]); [| | | |by apply elem_of_nil in H];
    inversion H; subst; clear H; unfold registered_keys;
    eauto using list_elem_of_here, list_elem_of_further.
Qed.

Lemma ENDPOINTS_query_inv (resource : slot_value) (query key template : string) :
  ENDPOINTS_query resource query = Ok (key, template) →
  resource = SText key
  ∧ ∃ queries, ENDPOINTS !! key = Some (EndpointQueries queries)
               ∧ queries !! query = Some template.
Proof.
  unfold ENDPOINTS_query, getitem. destruct resource as [|k|l]; [done| |done].
  destruct (ENDPOINTS !! k) as [[pattern|queries]|] eqn:Hk; cbn [bind]; [done| |done].
  destruct (queries !! query) as [t|] eqn:Hq; cbn [bind]; [|done].
  intros [= <- <-]. eauto.
Qed.

Lemma find_facilities_path_inv (location resource : slot_value) (path : string) :
  _find_facilities_full_path location resource = Ok path →
  ∃ loc key queries,
    location = SText loc ∧ resource = SText key
    ∧ ENDPOINTS !! key = Some (EndpointQueries queries).
Proof.
  unfold _find_facilities_full_path. destruct location as [|loc|l]; [done| |done].
  rewrite ENDPOINTS_base_pattern. cbn [bind].
  destruct (str_isdigit loc).
  - destruct (ENDPOINTS_query resource "zip_code_query") as [[key t]|e] eqn:Hq;
      cbn [bind]; [|done].
    apply ENDPOINTS_query_inv in Hq as (-> & queries & Hk & _). eauto 6.
  - destruct (ENDPOINTS_query resource "city_query") as [[key t]|e] eqn:Hq;
      cbn [bind]; [|done].
    apply ENDPOINTS_query_inv in Hq as (-> & queries & Hk & _). eauto 6.
Qed.

Lemma lookup_path_inv (facility_type healthcare_id : slot_value) (path : string) :
  FindHealthCareAddress.full_path facility_type healthcare_id = Ok path →
  ∃ key queries,
    facility_type = SText key ∧ ENDPOINTS !! key = Some (EndpointQueries queries).
Proof.
  unfold FindHealthCareAddress.full_path. rewrite ENDPOINTS_base_pattern. cbn [bind].
  destruct (ENDPOINTS_query facility_type "id_query") as [[key t]|e] eqn:Hq;
    cbn [bind]; [|done].
  apply ENDPOINTS_query_inv in Hq as (-> & queries & Hk & _). eauto.
Qed.

(** X5: an action that fetches returns only for a registered data
    source: whenever the search or the lookup returns, the facility type
    is the text of one of the three keys, so the last branch of the two
    dispatches is only ever taken for the key of the home health agencies. *)
Theorem actions_return_only_for_registered
    (requests_get_json : string → result (list record)) (tracker : Tracker)
    (out : outcome) :
  SubmitFacilityForm.run requests_get_json tracker = Ok out
  ∨ FindHealthCareAddress.run requests_get_json tracker = Ok out →
  ∃ key, get_slot tracker "facility_type" = SText key ∧ key ∈ registered_keys.
Proof.
  intros [Hrun|Hrun].
  - unfold SubmitFacilityForm.run, _find_facilities in Hrun.
    destruct (_find_facilities_full_path _ _) as [path|e] eqn:Hpath;
      cbn [bind] in Hrun; [|done].
    apply find_facilities_path_inv in Hpath as (loc & key & queries & _ & -> & Hk).
    eauto using ENDPOINTS_registered_keys.
  - unfold FindHealthCareAddress.run in Hrun.
    destruct (FindHealthCareAddress.full_path _ _) as [path|e] eqn:Hpath;
      cbn [bind] in Hrun; [|done].
    apply lookup_path_inv in Hpath as (key & queries & -> & Hk).
    eauto using ENDPOINTS_registered_keys.
Qed.

Lemma actions_return_only_for_registered_witness :
  ∃ key, get_slot (boston_tracker "b27b-2uc7") "facility_type" = SText key
         ∧ key ∈ registered_keys.
Proof.
  exact (actions_return_only_for_registered (λ _, Ok [acme_home])
           (boston_tracker "b27b-2uc7") _ (or_intror eq_refl)).
Defined.

(** X6: a facility type that is a text but no key of the registry makes
    both actions fail with the [KeyError] of that text, whatever the data
    source would answer. *)
Theorem unregistered_type_raises
    (requests_get_json : string → result (list record)) (tracker : Tracker)
    (key : string) :
  get_slot tracker "facility_type" = SText key →
  ENDPOINTS !! key = None →
  FindHealthCareAddress.run requests_get_json tracker = Raise (KeyError (Some key))
  ∧ (∀ loc, get_slot tracker "location" = SText loc →
            SubmitFacilityForm.run requests_get_json tracker
            = Raise (KeyError (Some key))).
Proof.
  intros Hft Hk.
  assert (∀ query, ENDPOINTS_query (SText key) query = Raise (KeyError (Some key)))
    as Hq.
  { intros query. unfold ENDPOINTS_query, getitem. by rewrite Hk. }
  split.
  - unfold FindHealthCareAddress.run, FindHealthCareAddress.full_path.
    by rewrite Hft, ENDPOINTS_base_pattern, Hq.
  - intros loc Hloc.
    unfold SubmitFacilityForm.run, _find_facilities, _find_facilities_full_path.
    rewrite Hft, Hloc, ENDPOINTS_base_pattern, !Hq. by destruct (str_isdigit loc).
Qed.

Lemma unregistered_type_raises_witness :
  FindHealthCareAddress.run (λ _, Ok [salem_agency]) (boston_tracker "clinic")
  = Raise (KeyError (Some "clinic"))
  ∧ SubmitFacilityForm.run (λ _, Ok [salem_agency]) (boston_tracker "clinic")
    = Raise (KeyError (Some "clinic")).
Proof.
  destruct (unregistered_type_raises (λ _, Ok [salem_agency]) (boston_tracker "clinic")
              "clinic" eq_refl eq_refl) as [Hlookup Hsearch].
  split; [exact Hlookup|exact (Hsearch "boston" eq_refl)].
Defined.

(** X7: run before the slots are filled, the actions fail without a
    request: the search with no location raises [TypeError] whatever the
    facility type, and with a location but no facility type the
    [KeyError] of [None], as the lookup does. *)
Theorem unfilled_slots_raise
    (requests_get_json : string → result (list record)) (tracker : Tracker) :
  (get_slot tracker "location" = SNone →
   SubmitFacilityForm.run requests_get_json tracker = Raise TypeError)
  ∧ (get_slot tracker "facility_type" = SNone →
     FindHealthCareAddress.run requests_get_json tracker = Raise (KeyError None)
     ∧ ∀ loc, get_slot tracker "location" = SText loc →
              SubmitFacilityForm.run requests_get_json tracker
              = Raise (KeyError None)).
Proof.
  split.
  - intros Hloc. unfold SubmitFacilityForm.run, _find_facilities. by rewrite Hloc.
  - intros Hft. split.
    + unfold FindHealthCareAddress.run, FindHealthCareAddress.full_path.
      by rewrite Hft.
    + intros loc Hloc.
      unfold SubmitFacilityForm.run, _find_facilities, _find_facilities_full_path.
      rewrite Hft, Hloc. by destruct (str_isdigit loc).
Qed.

Lemma unfilled_slots_raise_witness :
  SubmitFacilityForm.run (λ _, Ok [acme_home]) {| slots := ∅ |} = Raise TypeError
  ∧ FindHealthCareAddress.run (λ _, Ok [acme_home]) {| slots := ∅ |}
    = Raise (KeyError None)
  ∧ SubmitFacilityForm.run (λ _, Ok [acme_home])
      {| slots := list_to_map [ ("location", SText "boston") ] |}
    = Raise (KeyError None).
Proof.
  split; [|split].
  - exact (proj1 (unfilled_slots_raise (λ _, Ok [acme_home]) {| slots := ∅ |}) eq_refl).
  - exact (proj1 (proj2 (unfilled_slots_raise (λ _, Ok [acme_home]) {| slots := ∅ |})
                    eq_refl)).
  - exact (proj2 (proj2 (unfilled_slots_raise (λ _, Ok [acme_home])
                           {| slots := list_to_map [ ("location", SText "boston") ] |})
                    eq_refl) "boston" eq_refl).
Defined.

(** ** The dispatch on the data-source key, in the actions *)

Lemma ENDPOINTS_query_unregistered (facility_type : slot_value) (query : string) :
  (∀ key, key ∈ registered_keys → facility_type ≠ SText key) →
  ∃ e, ENDPOINTS_query facility_type query = Raise e
       ∧ (e = TypeError ∨ ∃ key, e = KeyError key).
Proof.
  intros Hother. unfold ENDPOINTS_query, getitem.
  destruct facility_type as [|k|l]; [by eauto|..|by eauto].
  destruct (ENDPOINTS !! k) as [[pattern|queries]|] eqn:Hk; cbn [bind]; [by eauto| |by eauto].
  apply ENDPOINTS_registered_keys in Hk. by destruct (Hother k Hk).
Qed.

Lemma other_than_registered (facility_type : slot_value) :
  facility_type ≠ SText "xubh-q36u" → facility_type ≠ SText "b27b-2uc7" →
  facility_type ≠ SText "9wzi-peqs" →
  ∀ key, key ∈ registered_keys → facility_type ≠ SText key.
Proof.
  intros Hh Hn Ha key Hin. unfold registered_keys in Hin.
  repeat (apply elem_of_cons in Hin as [->|Hin]); [done..|by apply elem_of_nil in Hin].
Qed.

(** C9, as stated, fails: with a facility type that is neither the
    hospital key nor the nursing-home key, a record of the home health
    agencies does not get its address: the lookup action fails at the
    registry before the dispatch. *)
Lemma fall_through_not_for_unknown_key :
  ¬ (∀ (requests_get_json : string → result (list record)) (tracker : Tracker)
       (r : record) (a c s z : string),
       get_slot tracker "facility_type" ≠ SText "xubh-q36u" →
       get_slot tracker "facility_type" ≠ SText "b27b-2uc7" →
       (∀ path, requests_get_json path = Ok [r]) →
       r !! "address" = Some a → r !! "city" = Some c →
       r !! "state" = Some s → r !! "zip" = Some z →
       FindHealthCareAddress.run requests_get_json tracker
       = Ok (Outcome [SlotSet "facility_address"
                        (SText (str_title a +:+ ", " +:+ str_title c +:+ ", "
                                +:+ str_upper s +:+ " " +:+ str_title z))] [] [])).
Proof.
  intros H.
  specialize (H (λ _, Ok [salem_agency]) (boston_tracker "no-such-key") salem_agency
                "1 elm st" "salem" "or" "97301").
  assert (FindHealthCareAddress.run (λ _, Ok [salem_agency])
            (boston_tracker "no-such-key") = Raise (KeyError (Some "no-such-key")))
    as Hrun by reflexivity.
  rewrite Hrun in H.
  assert (get_slot (boston_tracker "no-such-key") "facility_type" ≠ SText "xubh-q36u")
    as Hh by discriminate.
  assert (get_slot (boston_tracker "no-such-key") "facility_type" ≠ SText "b27b-2uc7")
    as Hn by discriminate.
  specialize (H Hh Hn (λ _, eq_refl) eq_refl eq_refl eq_refl eq_refl).
  discriminate H.
Qed.

(** C9 (amended): the dispatch on the data-source key is an if, an elif
    and an else, and in the actions its last branch is taken for the key
    of the home health agencies only.  For a facility type that is
    neither the hospital key nor the nursing-home key: if it is not the
    home-health key either (an unknown text, [None], a list), both
    actions fail at the registry, before the dispatch, with a [KeyError]
    or a [TypeError]; if it is the home-health key, the address is read
    from address, city, state and zip, and a search entry from
    provider_number and provider_name. *)
Theorem fall_through_only_for_home_health
    (requests_get_json : string → result (list record)) (tracker : Tracker) :
  get_slot tracker "facility_type" ≠ SText "xubh-q36u" →
  get_slot tracker "facility_type" ≠ SText "b27b-2uc7" →
  (get_slot tracker "facility_type" ≠ SText "9wzi-peqs" →
   (∃ e, FindHealthCareAddress.run requests_get_json tracker = Raise e
         ∧ (e = TypeError ∨ ∃ key, e = KeyError key))
   ∧ (∃ e, SubmitFacilityForm.run requests_get_json tracker = Raise e
           ∧ (e = TypeError ∨ ∃ key, e = KeyError key)))
  ∧ (get_slot tracker "facility_type" = SText "9wzi-peqs" →
     (∀ (path : string) (r : record) (rest : list record),
        FindHealthCareAddress.full_path (SText "9wzi-peqs")
          (get_slot tracker "facility_id") = Ok path →
        requests_get_json path = Ok (r :: rest) →
        FindHealthCareAddress.run requests_get_json tracker
        = rmap (λ address, Outcome [SlotSet "facility_address" (SText address)] [] [])
            (address_with "address" "city" "state" "zip" r))
     ∧ (∀ (results : list record) (out : outcome),
          _find_facilities requests_get_json (get_slot tracker "location")
            (SText "9wzi-peqs") = Ok results →
          SubmitFacilityForm.run requests_get_json tracker = Ok out →
          ∃ text entries,
            out = Outcome [] [Message text entries] []
            ∧ mapM (button_with "provider_number" "provider_name") (take 3 results)
              = Ok entries)).
Proof.
  intros Hh Hn. split.
  - intros Ha. pose proof (other_than_registered _ Hh Hn Ha) as Hother. split.
    + destruct (ENDPOINTS_query_unregistered _ "id_query" Hother) as (e & He & Hkind).
      exists e. split; [|exact Hkind].
      unfold FindHealthCareAddress.run, FindHealthCareAddress.full_path.
      by rewrite ENDPOINTS_base_pattern, He.
    + unfold SubmitFacilityForm.run, _find_facilities, _find_facilities_full_path.
      destruct (get_slot tracker "location") as [|loc|l]; [by eauto| |by eauto].
      rewrite ENDPOINTS_base_pattern. cbn [bind].
      destruct (str_isdigit loc).
      * destruct (ENDPOINTS_query_unregistered _ "zip_code_query" Hother)
          as (e & -> & Hkind). by exists e.
      * destruct (ENDPOINTS_query_unregistered _ "city_query" Hother)
          as (e & -> & Hkind). by exists e.
  - intros Ha. split.
    + intros path r rest Hpath Hget. unfold FindHealthCareAddress.run.
      rewrite Ha, Hpath. cbn [bind]. rewrite Hget. cbn [bind].
      by rewrite address_dispatch.
    + intros results out Hfind. unfold SubmitFacilityForm.run.
      rewrite Ha, Hfind. cbn [bind].
      assert (∀ l, mapM (SubmitFacilityForm.facility_button (SText "9wzi-peqs")) l
                   = mapM (button_with "provider_number" "provider_name") l) as Hmap.
      { intros l. induction l as [|r l IH]; [done|]. cbn [mapM].
        by rewrite IH, button_dispatch. }
      rewrite Hmap.
      destruct (length results =? 0) eqn:Hlen.
      * apply Nat.eqb_eq, nil_length_inv in Hlen as ->.
        destruct (get_slot tracker "location") as [|loc|l]; cbn [bind]; [done| |done].
        rewrite format_sorry. cbn [bind]. intros [= <-]. by eexists _, [].
      * destruct (mapM _ (take 3 results)) as [entries|e]; cbn [bind]; [|done].
        destruct (SubmitFacilityForm.summary _ _) as [text|e]; cbn [bind]; [|done].
        intros [= <-]. by exists text, entries.
Qed.

Lemma fall_through_only_for_home_health_witness :
  ((∃ e, FindHealthCareAddress.run (λ _, Ok [salem_agency])
           (boston_tracker "no-such-key") = Raise e
         ∧ (e = TypeError ∨ ∃ key, e = KeyError key))
   ∧ (∃ e, SubmitFacilityForm.run (λ _, Ok [salem_agency])
             (boston_tracker "no-such-key") = Raise e
           ∧ (e = TypeError ∨ ∃ key, e = KeyError key)))
  ∧ FindHealthCareAddress.run (λ _, Ok [salem_agency]) (boston_tracker "9wzi-peqs")
    = Ok (Outcome [SlotSet "facility_address" (SText "1 Elm St, Salem, OR 97301")]
            [] []).
Proof.
  split.
  - refine (proj1 (fall_through_only_for_home_health (λ _, Ok [salem_agency])
                     (boston_tracker "no-such-key") _ _) _); discriminate.
  - refine (proj1 (proj2 (fall_through_only_for_home_health (λ _, Ok [salem_agency])
                            (boston_tracker "9wzi-peqs") _ _) eq_refl)
              "https://data.medicare.gov/resource/9wzi-peqs.json?provider_number=123"
              salem_agency [] eq_refl eq_refl); discriminate.
Defined.

(** ** The path builder: further properties *)

Lemma create_path_none (base resource query : string) :
  _create_path base resource query SNone
  = _create_path base resource query (SText "None").
Proof. reflexivity. Qed.

Lemma create_path_as_text (base resource query : string) (values : slot_value) :
  ∃ v, _create_path base resource query values
       = str_format (base +:+ query) [resource; v].
Proof.
  destruct values as [|v|ws]; [by eexists|by eexists|].
  unfold _create_path. rewrite mapM_quoted. by eexists.
Qed.

(** X8: the path of an identifier lookup, for every registered data
    source: a text identifier closes the path as it is, an unset
    identifier as the text None, and a list as its elements in double
    quotes, joined with a comma and a space. *)
Theorem lookup_path_by_value :
  (∀ (key : string) (queries : gmap string string),
     ENDPOINTS !! key = Some (EndpointQueries queries) →
     ∃ id_prefix,
       queries !! "id_query" = Some (id_prefix +:+ "{}")
       ∧ (∀ id : string,
            FindHealthCareAddress.full_path (SText key) (SText id)
            = Ok ("https://data.medicare.gov/resource/" +:+ key +:+ ".json"
                  +:+ id_prefix +:+ id))
       ∧ FindHealthCareAddress.full_path (SText key) SNone
         = Ok ("https://data.medicare.gov/resource/" +:+ key +:+ ".json"
               +:+ id_prefix +:+ "None")
       ∧ (∀ ids : list string,
            FindHealthCareAddress.full_path (SText key) (SList ids)
            = Ok ("https://data.medicare.gov/resource/" +:+ key +:+ ".json"
                  +:+ id_prefix +:+ comma_joined (map quoted ids))))
  ∧ FindHealthCareAddress.full_path (SText "xubh-q36u")
      (SList ["220071"; "220110"; "220086"; "220116"])
    = Ok ("https://data.medicare.gov/resource/xubh-q36u.json?provider_id="
          +:+ dquote +:+ "220071" +:+ dquote +:+ ", "
          +:+ dquote +:+ "220110" +:+ dquote +:+ ", "
          +:+ dquote +:+ "220086" +:+ dquote +:+ ", "
          +:+ dquote +:+ "220116" +:+ dquote)
  ∧ FindHealthCareAddress.full_path (SText "xubh-q36u") (SList ["220071"])
    = Ok ("https://data.medicare.gov/resource/xubh-q36u.json?provider_id="
          +:+ dquote +:+ "220071" +:+ dquote)
  ∧ FindHealthCareAddress.full_path (SText "xubh-q36u") SNone
    = Ok "https://data.medicare.gov/resource/xubh-q36u.json?provider_id=None".
Proof.
  split; [|by repeat split].
  intros key queries Hk.
  destruct (ENDPOINTS_registered _ _ Hk) as (zp & cp & ip & _ & _ & Hi & _ & _ & Hip).
  exists ip. split; [exact Hi|].
  assert (∀ id, FindHealthCareAddress.full_path (SText key) (SText id)
                = Ok ("https://data.medicare.gov/resource/" +:+ key +:+ ".json"
                      +:+ ip +:+ id)) as Htext.
  { intros id. by apply (registered_path _ _ _ _ _ Hk Hi). }
  split; [exact Htext|]. split; [exact (Htext "None")|].
  intros ids. unfold FindHealthCareAddress.full_path.
  rewrite ENDPOINTS_base_pattern, (ENDPOINTS_query_registered _ _ _ _ Hk Hi).
  cbn [bind]. rewrite create_path_list by done.
  by rewrite str_join_comma_joined, app_nil_r_string.
Qed.

Lemma lookup_path_by_value_witness :
  ∃ id_prefix,
    (list_to_map [ ("city_query", "?provider_city={}");
                   ("zip_code_query", "?provider_zip_code={}");
                   ("id_query", "?federal_provider_number={}") ] : gmap string string)
      !! "id_query" = Some (id_prefix +:+ "{}")
    ∧ (∀ id : string,
         FindHealthCareAddress.full_path (SText "b27b-2uc7") (SText id)
         = Ok ("https://data.medicare.gov/resource/" +:+ "b27b-2uc7" +:+ ".json"
               +:+ id_prefix +:+ id))
    ∧ FindHealthCareAddress.full_path (SText "b27b-2uc7") SNone
      = Ok ("https://data.medicare.gov/resource/" +:+ "b27b-2uc7" +:+ ".json"
            +:+ id_prefix +:+ "None")
    ∧ (∀ ids : list string,
         FindHealthCareAddress.full_path (SText "b27b-2uc7") (SList ids)
         = Ok ("https://data.medicare.gov/resource/" +:+ "b27b-2uc7" +:+ ".json"
               +:+ id_prefix +:+ comma_joined (map quoted ids))).
Proof. apply (proj1 lookup_path_by_value "b27b-2uc7"). reflexivity. Defined.

Lemma field_value_out_of_range (a1 a2 : string) :
  field_value [a1; a2] (NumAuto 2) EmptyString = Raise IndexError.
Proof. reflexivity. Qed.

(** X9: the builder and the number of slots.  With no slot in the base
    and the template, the path is the two joined, and key and value are
    dropped; with the one slot of the base only, the value is dropped;
    with a third slot the builder fails with [IndexError]. *)
Theorem create_path_slot_counts (b1 b2 q1 q2 q3 resource : string) (values : slot_value) :
  no_brace b1 = true → no_brace b2 = true →
  no_brace q1 = true → no_brace q2 = true → no_brace q3 = true →
  _create_path b1 resource q1 values = Ok (b1 +:+ q1)
  ∧ _create_path (one_slot b1 b2) resource q1 values
    = Ok (b1 +:+ resource +:+ b2 +:+ q1)
  ∧ _create_path (one_slot b1 b2) resource (q1 +:+ "{}" +:+ q2 +:+ "{}" +:+ q3) values
    = Raise IndexError.
Proof.
  intros Hb1 Hb2 Hq1 Hq2 Hq3.
  destruct (create_path_as_text b1 resource q1 values) as [v0 ->].
  destruct (create_path_as_text (one_slot b1 b2) resource q1 values) as [v1 ->].
  destruct (create_path_as_text (one_slot b1 b2) resource
              (q1 +:+ "{}" +:+ q2 +:+ "{}" +:+ q3) values) as [v3 ->].
  unfold str_format, one_slot. split; [|split].
  - apply format_from_end. by apply no_brace_app.
  - rewrite !app_assoc_string.
    rewrite format_from_text, format_from_slot by done.
    change (field_value [resource; v1] NumInit EmptyString)
      with (Ok (A:=string * numbering) (resource, NumAuto 1)). cbn [bind].
    rewrite format_from_end by (by apply no_brace_app). done.
  - rewrite !app_assoc_string.
    rewrite format_from_text, format_from_slot by done.
    change (field_value [resource; v3] NumInit EmptyString)
      with (Ok (A:=string * numbering) (resource, NumAuto 1)). cbn [bind].
    rewrite <- (app_assoc_string b2 q1).
    rewrite format_from_text, format_from_slot by (by apply no_brace_app).
    change (field_value [resource; v3] (NumAuto 1) EmptyString)
      with (Ok (A:=string * numbering) (v3, NumAuto 2)). cbn [bind].
    rewrite format_from_text, format_from_slot by done.
    by rewrite field_value_out_of_range.
Qed.

Lemma create_path_slot_counts_witness :
  _create_path "https://data.medicare.gov/resource/" "xubh-q36u" "?city="
    (SText "02108")
  = Ok "https://data.medicare.gov/resource/?city="
  ∧ _create_path "https://data.medicare.gov/resource/{}.json" "xubh-q36u" "?city="
      (SText "02108")
    = Ok "https://data.medicare.gov/resource/xubh-q36u.json?city="
  ∧ _create_path "https://data.medicare.gov/resource/{}.json" "xubh-q36u"
      "?city={}&state={}" (SText "02108")
    = Raise IndexError.
Proof.
  exact (create_path_slot_counts "https://data.medicare.gov/resource/" ".json"
           "?city=" "&state=" EmptyString "xubh-q36u" (SText "02108")
           eq_refl eq_refl eq_refl eq_refl eq_refl).
Defined.

(** ** The data source: what the actions ask of it *)

(** X10: an exception of the request is not caught: when the request at
    the path of the action fails, the search and the lookup fail with
    the same exception. *)
Theorem upstream_error_propagates
    (requests_get_json : string → result (list record)) (tracker : Tracker)
    (path : string) (e : exn) :
  requests_get_json path = Raise e →
  (_find_facilities_full_path (get_slot tracker "location")
     (get_slot tracker "facility_type") = Ok path →
   SubmitFacilityForm.run requests_get_json tracker = Raise e)
  ∧ (FindHealthCareAddress.full_path (get_slot tracker "facility_type")
       (get_slot tracker "facility_id") = Ok path →
     FindHealthCareAddress.run requests_get_json tracker = Raise e).
Proof.
  intros Hget. split; intros Hpath.
  - unfold SubmitFacilityForm.run, _find_facilities. by rewrite Hpath; cbn [bind]; rewrite Hget.
  - unfold FindHealthCareAddress.run. by rewrite Hpath; cbn [bind]; rewrite Hget.
Qed.

Lemma upstream_error_propagates_witness :
  SubmitFacilityForm.run (λ _, Raise TransportError) (boston_tracker "xubh-q36u")
  = Raise TransportError
  ∧ FindHealthCareAddress.run (λ _, Raise TransportError) (boston_tracker "xubh-q36u")
    = Raise TransportError.
Proof.
  split.
  - exact (proj1 (upstream_error_propagates (λ _, Raise TransportError)
                    (boston_tracker "xubh-q36u")
                    "https://data.medicare.gov/resource/xubh-q36u.json?city=BOSTON"
                    TransportError eq_refl) eq_refl).
  - exact (proj2 (upstream_error_propagates (λ _, Raise TransportError)
                    (boston_tracker "xubh-q36u")
                    "https://data.medicare.gov/resource/xubh-q36u.json?provider_id=123"
                    TransportError eq_refl) eq_refl).
Defined.

(** X11: an action asks the data source for one path only: two data
    sources that answer alike at the path of the action, where there is
    one, give the same outcome of the search, and likewise of the lookup. *)
Theorem upstream_read_at_path_only
    (get1 get2 : string → result (list record)) (tracker : Tracker) :
  ((∀ path, _find_facilities_full_path (get_slot tracker "location")
              (get_slot tracker "facility_type") = Ok path →
            get1 path = get2 path) →
   SubmitFacilityForm.run get1 tracker = SubmitFacilityForm.run get2 tracker)
  ∧ ((∀ path, FindHealthCareAddress.full_path (get_slot tracker "facility_type")
                (get_slot tracker "facility_id") = Ok path →
              get1 path = get2 path) →
     FindHealthCareAddress.run get1 tracker = FindHealthCareAddress.run get2 tracker).
Proof.
  split; intros Hsame.
  - unfold SubmitFacilityForm.run, _find_facilities.
    destruct (_find_facilities_full_path _ _) as [path|e]; cbn [bind]; [|done].
    by rewrite (Hsame path eq_refl).
  - unfold FindHealthCareAddress.run.
    destruct (FindHealthCareAddress.full_path _ _) as [path|e]; cbn [bind]; [|done].
    by rewrite (Hsame path eq_refl).
Qed.

Lemma upstream_read_at_path_only_witness :
  SubmitFacilityForm.run
    (λ path, if String.eqb path
                  "https://data.medicare.gov/resource/9wzi-peqs.json?city=BOSTON"
             then Ok [salem_agency] else Raise TransportError)
    (boston_tracker "9wzi-peqs")
  = SubmitFacilityForm.run (λ _, Ok [salem_agency]) (boston_tracker "9wzi-peqs").
Proof.
  apply (proj1 (upstream_read_at_path_only _ _ (boston_tracker "9wzi-peqs"))).
  intros path [= <-]. reflexivity.
Defined.

(** ** The category labels: further properties *)

Lemma resolve_name_cons (category : string) (value : gmap string string)
    (rest : list (string * gmap string string)) (resource : slot_value) :
  _resolve_name ((category, value) :: rest) resource
  = if bool_decide (resource_value value = resource) then value !! "name"
    else _resolve_name rest resource.
Proof. reflexivity. Qed.

(** X12: over any table of categories, the scan returns the name of the
    first entry whose resource is the one asked for, entries after it
    are not looked at; with no such entry it returns the empty text. *)
Theorem resolve_name_first_match
    (before after : list (string * gmap string string)) (category : string)
    (value : gmap string string) (resource : slot_value) :
  Forall (λ entry, resource_value entry.2 ≠ resource) before →
  (resource_value value = resource →
   _resolve_name (before ++ (category, value) :: after) resource = value !! "name")
  ∧ _resolve_name before resource = Some EmptyString.
Proof.
  intros Hbefore. induction Hbefore as [|[k v] before Hv _ IH].
  - split; [|done]. intros Hvalue. cbn [app]. rewrite resolve_name_cons.
    by rewrite bool_decide_eq_true_2.
  - destruct IH as [IHmatch IHnone]. cbn [app]. rewrite !resolve_name_cons.
    by rewrite !bool_decide_eq_false_2.
Qed.

Lemma resolve_name_first_match_witness :
  _resolve_name
    [ ("clinic", list_to_map [ ("name", "clinic"); ("resource", "aaaa-0000") ]);
      ("hospice", list_to_map [ ("name", "hospice"); ("resource", "bbbb-1111") ]);
      ("hospice_2", list_to_map [ ("name", "other"); ("resource", "bbbb-1111") ]) ]
    (SText "bbbb-1111")
  = Some "hospice".
Proof.
  refine (proj1 (resolve_name_first_match
                   [ ("clinic", list_to_map [ ("name", "clinic");
                                              ("resource", "aaaa-0000") ]) ]
                   [ ("hospice_2", list_to_map [ ("name", "other");
                                                 ("resource", "bbbb-1111") ]) ]
                   "hospice"
                   (list_to_map [ ("name", "hospice"); ("resource", "bbbb-1111") ])
                   (SText "bbbb-1111") _) eq_refl).
  repeat constructor. discriminate.
Defined.

(** ** ValidateFacilityForm *)

(** X13: the form never fails and returns one event, which asks for the
    first of facility_type and location that reads as [None] through
    [get_slot], a slot that is absent or one that is set to [None], and
    asks for nothing when both are filled. *)
Theorem validate_requests_first_unfilled (tracker : Tracker) :
  ValidateFacilityForm.run tracker
  = Ok (Outcome [SlotSet "requested_slot" (next_slot tracker)] [] []).
Proof.
  unfold ValidateFacilityForm.run, ValidateFacilityForm.required_slots,
    ValidateFacilityForm.first_unfilled, next_slot, get_slot.
  destruct (slots tracker !! "facility_type") as [[|s|l]|];
    destruct (slots tracker !! "location") as [[|s'|l']|]; reflexivity.
Qed.

(** ** FindFacilityTypes *)

(** X14: whatever the tracker, the greeting offers one button for each
    category of the table, in its order, with the label in title case as
    its title; the facility type of its payload is a registered data
    source, and its label is the one the search resolves for it. *)
Theorem offered_types_are_registered (tracker : Tracker) :
  ∃ offered,
    FindFacilityTypes.run tracker = Ok (Outcome [] [Message "utter_greet" offered] [])
    ∧ Forall2
        (λ entry b,
           ∃ name resource queries,
             entry.2 !! "name" = Some name
             ∧ entry.2 !! "resource" = Some resource
             ∧ b = Button (str_title name) (type_payload resource)
             ∧ ENDPOINTS !! resource = Some (EndpointQueries queries)
             ∧ _resolve_name FACILITY_TYPES (SText resource) = Some name)
        FACILITY_TYPES offered.
Proof.
  eexists. split; [reflexivity|].
  repeat constructor.
  - exists "hospital", "xubh-q36u". eexists. by repeat split.
  - exists "nursing home", "b27b-2uc7". eexists. by repeat split.
  - exists "home health agency", "9wzi-peqs". eexists. by repeat split.
Qed.

(** ** Search submission: the outcome *)

Lemma resolve_name_of_entry (category key label : string)
    (value : gmap string string) :
  (category, value) ∈ FACILITY_TYPES →
  value !! "resource" = Some key → value !! "name" = Some label →
  _resolve_name FACILITY_TYPES (SText key) = Some label.
Proof.
  intros Hin. unfold FACILITY_TYPES in Hin.
  repeat (apply elem_of_cons in Hin as [Hin|Hin]); [| | |by apply elem_of_nil in Hin];
    inversion Hin; subst; clear Hin; by intros [= <-] [= <-].
Qed.

(** X15: when the data source has no record for the search, the action
    utters one message without buttons and returns no event: sorry for
    the label that the table gives to the category of the searched data
    source, and for the location, an ASCII text, in title case. *)
Theorem search_without_results
    (requests_get_json : string → result (list record)) (tracker : Tracker)
    (loc key category label : string) (value : gmap string string) :
  get_slot tracker "location" = SText loc →
  ascii_text loc = true →
  get_slot tracker "facility_type" = SText key →
  (category, value) ∈ FACILITY_TYPES →
  value !! "resource" = Some key → value !! "name" = Some label →
  _find_facilities requests_get_json (SText loc) (SText key) = Ok [] →
  SubmitFacilityForm.run requests_get_json tracker
  = Ok (Outcome []
          [Message ("Sorry, we could not find a " +:+ label +:+ " in "
                    +:+ str_title loc +:+ ".") []]
          []).
Proof.
  intros Hloc _ Hft Hin Hres Hlabel Hfind.
  unfold SubmitFacilityForm.run. rewrite Hloc, Hft, Hfind. cbn [bind length Nat.eqb].
  rewrite (resolve_name_of_entry _ _ _ _ Hin Hres Hlabel).
  cbn [str_of_option default]. by rewrite format_sorry.
Qed.

Lemma search_without_results_witness :
  SubmitFacilityForm.run (λ _, Ok [])
    {| slots := list_to_map [ ("facility_type", SText "b27b-2uc7");
                              ("location", SText "NEW york") ] |}
  = Ok (Outcome [] [Message "Sorry, we could not find a nursing home in New York." []]
          []).
Proof.
  refine (search_without_results (λ _, Ok [])
            {| slots := list_to_map [ ("facility_type", SText "b27b-2uc7");
                                      ("location", SText "NEW york") ] |}
            "NEW york" "b27b-2uc7" "nursing_home" "nursing home"
            (list_to_map [ ("name", "nursing home"); ("resource", "b27b-2uc7") ])
            eq_refl eq_refl eq_refl _ eq_refl eq_refl eq_refl).
  apply list_elem_of_further, list_elem_of_here.
Defined.

Lemma button_of_fields (key id_field name_field : string) (r : record) :
  search_fields key = Some (id_field, name_field) →
  is_Some (r !! id_field) → is_Some (r !! name_field) →
  SubmitFacilityForm.facility_button (SText key) r
  = Ok (presented id_field name_field r).
Proof.
  intros Hf [id Hid] [name Hname]. rewrite button_dispatch. unfold presented.
  destruct (search_fields_cases _ _ _ Hf) as [[-> [= -> ->]]|[[-> [= -> ->]]|[-> [= -> ->]]]];
    cbn [slot_is String.eqb Ascii.eqb Bool.eqb];
    unfold button_with, button_with_get;
    rewrite ?(getitem_Some _ _ _ Hid), ?(getitem_Some _ _ _ Hname); cbn [bind];
    by rewrite ?Hid, ?Hname.
Qed.

Lemma summary_text (count : nat) (label : string) :
  SubmitFacilityForm.summary count (Some label)
  = Ok (if decide (count = 1) then "Here is a " +:+ label +:+ " near you:"
        else "Here are " +:+ str_of_nat count +:+ " " +:+ pluralize label
             +:+ " near you:").
Proof.
  unfold SubmitFacilityForm.summary. case_decide as Hcount.
  - subst. apply format_here_is.
  - rewrite (proj2 (Nat.eqb_neq count 1) Hcount).
    unfold pluralize. case_bool_decide as Hlabel.
    + inversion Hlabel; subst. by rewrite format_here_are.
    + rewrite format_here_are.
      destruct (String.eqb_spec label "home health agency") as [->|_]; [done|].
      cbn [str_of_option default]. by rewrite (app_assoc_string label).
Qed.

(** X16: with records that have the identifier and the name of their
    data source, the name an ASCII text, the search utters one message
    and returns no event: the buttons are those of the first three
    records, title-cased name and selecting payload, and the text counts
    the buttons, not the records of the data source: the singular of the
    label for one record, else the number of buttons, at most three, and
    the plural of the label; the label is the one that the table gives to
    the category of the searched data source. *)
Theorem search_presents
    (requests_get_json : string → result (list record)) (tracker : Tracker)
    (loc key id_field name_field category label : string)
    (value : gmap string string) (results : list record) :
  get_slot tracker "location" = SText loc →
  get_slot tracker "facility_type" = SText key →
  (category, value) ∈ FACILITY_TYPES →
  value !! "resource" = Some key → value !! "name" = Some label →
  search_fields key = Some (id_field, name_field) →
  _find_facilities requests_get_json (SText loc) (SText key) = Ok results →
  results ≠ [] →
  Forall (λ r, is_Some (r !! id_field)
               ∧ ∃ name, r !! name_field = Some name ∧ ascii_text name = true)
    (take 3 results) →
  SubmitFacilityForm.run requests_get_json tracker
  = Ok (Outcome []
          [Message
             (if decide (length results = 1)
              then "Here is a " +:+ label +:+ " near you:"
              else "Here are " +:+ str_of_nat (Nat.min 3 (length results))
                   +:+ " " +:+ pluralize label +:+ " near you:")
             (map (presented id_field name_field) (take 3 results))]
          []).
Proof.
  intros Hloc Hft Hin Hres Hlabel Hf Hfind Hne Hfields.
  unfold SubmitFacilityForm.run. rewrite Hloc, Hft, Hfind. cbn [bind].
  destruct results as [|r results]; [done|]. cbn [length Nat.eqb].
  rewrite (mapM_Ok _ (presented id_field name_field)).
  2:{ eapply Forall_impl; [exact Hfields|]. intros r' [Hid (name & Hnm & _)]. cbn beta.
      by apply button_of_fields. }
  cbn [bind]. rewrite (resolve_name_of_entry _ _ _ _ Hin Hres Hlabel), summary_text.
  cbn [bind]. rewrite length_map, length_take. cbn [length].
  do 4 f_equal. repeat case_decide; try done; lia.
Qed.

Lemma search_presents_witness :
  SubmitFacilityForm.run
    (λ _, Ok [ hospital_record "220071" "MASSACHUSETTS GENERAL HOSPITAL";
               hospital_record "220110" "BRIGHAM AND WOMEN'S HOSPITAL";
               hospital_record "220086" "beth israel deaconess";
               hospital_record "220116" "tufts medical center" ])
    (boston_tracker "xubh-q36u")
  = Ok (Outcome []
          [Message "Here are 3 hospitals near you:"
             [ Button "Massachusetts General Hospital" (select_payload "220071");
               Button "Brigham And Women'S Hospital" (select_payload "220110");
               Button "Beth Israel Deaconess" (select_payload "220086") ]]
          []).
Proof.
  refine (search_presents _ (boston_tracker "xubh-q36u") "boston" "xubh-q36u"
            "provider_id" "hospital_name" "hospital" "hospital"
            (list_to_map [ ("name", "hospital"); ("resource", "xubh-q36u") ])
            [ hospital_record "220071" "MASSACHUSETTS GENERAL HOSPITAL";
              hospital_record "220110" "BRIGHAM AND WOMEN'S HOSPITAL";
              hospital_record "220086" "beth israel deaconess";
              hospital_record "220116" "tufts medical center" ]
            eq_refl eq_refl _ eq_refl eq_refl eq_refl eq_refl _ _).
  - apply list_elem_of_here.
  - discriminate.
  - repeat constructor; by eexists.
Defined.
